(** * autograph: the APK detached-signature signer and the monitor's chain validator

    A shallow embedding of [signer/apk/apk.go] (package [apk]) and of the
    certificate-chain checks exercised by the tests of
    [tools/autograph-monitor], followed by the properties of the
    specification that concern them.

    Conventions.
    - A Go [string] is a [string] (a sequence of 8-bit characters); a Go
      [[]byte] is a [list byte].
    - A Go function returning [(T, error)] returns a pair whose second
      component is [option error]; [None] is the [nil] error.  A pointer
      result that may be [nil] is an [option].
    - An [error] is represented by its message, the value of [Error()].
    - [time.Time] is an integer number of nanoseconds. *)

From Stdlib Require Import ZArith List Bool Lia.
From Stdlib.Strings Require Import String Ascii Byte.
Import ListNotations.

Local Open Scope string_scope.
Local Open Scope list_scope.

Definition bytes := list byte.

(** [[]byte(s)] and [string(b)]. *)
Definition bytes_of_string (s : string) : bytes := list_byte_of_string s.
Definition string_of_bytes (b : bytes) : string := string_of_list_byte b.

(** ** Package [strings] *)

Fixpoint strings_HasPrefix (s prefix : string) : bool :=
  match prefix, s with
  | EmptyString, _ => true
  | String _ _, EmptyString => false
  | String p prefix', String c s' => Ascii.eqb p c && strings_HasPrefix s' prefix'
  end.

Fixpoint strings_Contains (s substr : string) : bool :=
  strings_HasPrefix s substr ||
  match s with
  | EmptyString => false
  | String _ s' => strings_Contains s' substr
  end.

(** ** Package [github.com/pkg/errors] *)

Definition error := string.

Definition errors_New (message : string) : error := message.

Definition errors_Wrap (err : error) (message : string) : error :=
  (message ++ ": " ++ err)%string.

(** The double quote character, [U+0022]. *)
Definition dquote : string := String (ascii_of_nat 34) EmptyString.

(** ** Package [time] *)

Definition Time := Z.

Definition Before (t u : Time) : bool := (t <? u)%Z.
Definition After (t u : Time) : bool := (u <? t)%Z.

Definition Duration := Z.
Definition Nanosecond : Duration := 1%Z.
Definition Second : Duration := (1000000000 * Nanosecond)%Z.
Definition Hour : Duration := (3600 * Second)%Z.

(** ** Package [encoding/base64]: the standard encoding of RFC 4648, section 4 *)

Module base64.

(** A group of six bits, most significant first. *)
Definition sextet : Type := bool * bool * bool * bool * bool * bool.

Definition sextet_index (s : sextet) : nat :=
  let '(b5, b4, b3, b2, b1, b0) := s in
  let w (b : bool) (n : nat) := if b then n else 0 in
  w b5 32 + w b4 16 + w b3 8 + w b2 4 + w b1 2 + w b0 1.

Definition encodeStd : string :=
  "ABCDEFGHIJKLMNOPQRSTUVWXYZabcdefghijklmnopqrstuvwxyz0123456789+/".

Definition StdPadding : ascii := "="%char.

Definition encodeChar (s : sextet) : ascii :=
  match String.get (sextet_index s) encodeStd with
  | Some c => c
  | None => StdPadding
  end.

Definition all_sextets : list sextet :=
  let bs := [false; true] in
  flat_map (fun b5 => flat_map (fun b4 => flat_map (fun b3 =>
  flat_map (fun b2 => flat_map (fun b1 => map (fun b0 =>
    (b5, b4, b3, b2, b1, b0)) bs) bs) bs) bs) bs) bs.

(** The decode map: the sextet a character of the alphabet stands for. *)
Definition decodeChar (c : ascii) : option sextet :=
  find (fun s => Ascii.eqb (encodeChar s) c) all_sextets.

(** Three bytes are four sextets.  [Byte.to_bits] lists the least
    significant bit first. *)
Definition zero_byte : byte := x00.

Definition split3 (a b c : byte) : sextet * sextet * sextet * sextet :=
  let '(a0, (a1, (a2, (a3, (a4, (a5, (a6, a7))))))) := Byte.to_bits a in
  let '(b0, (b1, (b2, (b3, (b4, (b5, (b6, b7))))))) := Byte.to_bits b in
  let '(c0, (c1, (c2, (c3, (c4, (c5, (c6, c7))))))) := Byte.to_bits c in
  ((a7, a6, a5, a4, a3, a2), (a1, a0, b7, b6, b5, b4),
   (b3, b2, b1, b0, c7, c6), (c5, c4, c3, c2, c1, c0)).

Definition join4 (s0 s1 s2 s3 : sextet) : byte * byte * byte :=
  let '(a7, a6, a5, a4, a3, a2) := s0 in
  let '(a1, a0, b7, b6, b5, b4) := s1 in
  let '(b3, b2, b1, b0, c7, c6) := s2 in
  let '(c5, c4, c3, c2, c1, c0) := s3 in
  (Byte.of_bits (a0, (a1, (a2, (a3, (a4, (a5, (a6, a7))))))),
   Byte.of_bits (b0, (b1, (b2, (b3, (b4, (b5, (b6, b7))))))),
   Byte.of_bits (c0, (c1, (c2, (c3, (c4, (c5, (c6, c7)))))))).

(** [StdEncoding.EncodeToString], as a list of characters. *)
Fixpoint encode (src : bytes) : list ascii :=
  match src with
  | [] => []
  | [a] =>
      let '(s0, s1, _, _) := split3 a zero_byte zero_byte in
      [encodeChar s0; encodeChar s1; StdPadding; StdPadding]
  | [a; b] =>
      let '(s0, s1, s2, _) := split3 a b zero_byte in
      [encodeChar s0; encodeChar s1; encodeChar s2; StdPadding]
  | a :: b :: c :: rest =>
      let '(s0, s1, s2, s3) := split3 a b c in
      encodeChar s0 :: encodeChar s1 :: encodeChar s2 :: encodeChar s3 :: encode rest
  end.

Definition EncodeToString (src : bytes) : string :=
  string_of_list_ascii (encode src).

(** [CorruptInputError].  The message of Go ends with the byte offset of
    the corruption, "illegal base64 data at input byte N"; the offset is
    not modelled, and the constant stands for every such message.  The
    properties below therefore say that the decoder returns an error, and
    never that two inputs give the same one. *)
Definition CorruptInputError : error := "illegal base64 data".

Definition is_newline (c : ascii) : bool :=
  Ascii.eqb c (ascii_of_nat 10) || Ascii.eqb c (ascii_of_nat 13).

Definition is_pad (c : ascii) : bool := Ascii.eqb c StdPadding.

(** Decoding of the quanta of four characters, once the new lines are
    dropped.  As the Go decoder does, the bytes decoded before a corrupt
    position are returned with the error. *)
Fixpoint decode (src : list ascii) : bytes * option error :=
  match src with
  | [] => ([], None)
  | c0 :: c1 :: c2 :: c3 :: rest =>
      match decodeChar c0, decodeChar c1 with
      | Some s0, Some s1 =>
          match decodeChar c2, decodeChar c3 with
          | Some s2, Some s3 =>
              let '(a, b, c) := join4 s0 s1 s2 s3 in
              let '(out, err) := decode rest in
              (a :: b :: c :: out, err)
          | Some s2, None =>
              if is_pad c3 then
                let '(a, b, _) := join4 s0 s1 s2 s0 in
                ([a; b], match rest with [] => None | _ => Some CorruptInputError end)
              else ([], Some CorruptInputError)
          | None, _ =>
              if is_pad c2 && is_pad c3 then
                let '(a, _, _) := join4 s0 s1 s0 s0 in
                ([a], match rest with [] => None | _ => Some CorruptInputError end)
              else ([], Some CorruptInputError)
          end
      | _, _ => ([], Some CorruptInputError)
      end
  | _ => ([], Some CorruptInputError)
  end.

(** [StdEncoding.DecodeString]: new line characters are ignored. *)
Definition DecodeString (s : string) : bytes * option error :=
  decode (filter (fun c => negb (is_newline c)) (list_ascii_of_string s)).

End base64.

(** ** Package [encoding/pem] *)

Module pem.

(** [pem.Block]; the headers, which this program never sets, are left out. *)
Record Block := mkBlock { Type_ : string; Bytes : bytes }.

Definition newline : ascii := ascii_of_nat 10.

Definition pemLineLength : nat := 64.

(** The [lineBreaker] writer: [used] characters stand on the current line;
    closing it ends a line that was begun. *)
Fixpoint lineBreaker (used : nat) (b : list ascii) : list ascii :=
  match b with
  | [] => if Nat.eqb used 0 then [] else [newline]
  | c :: b' =>
      if Nat.eqb used pemLineLength
      then newline :: c :: lineBreaker 1 b'
      else c :: lineBreaker (S used) b'
  end.

(** [pem.Encode] into an empty buffer. *)
Definition Encode (b : Block) : string :=
  ("-----BEGIN " ++ Type_ b ++ "-----" ++ String newline EmptyString
   ++ string_of_list_ascii (lineBreaker 0 (base64.encode (Bytes b)))
   ++ "-----END " ++ Type_ b ++ "-----" ++ String newline EmptyString)%string.

End pem.

(** ** Package [crypto/x509] *)

Module x509.

(** The fields of [x509.Certificate] that the program and its
    specification read. *)
Record Certificate := mkCertificate {
  Raw : bytes;
  Subject : string;
  Issuer : string;
  NotBefore : Time;
  NotAfter : Time;
  RawSubjectPublicKeyInfo : bytes
}.

End x509.

(** ** Package [go.mozilla.org/autograph/signer] *)

Module signer.

Record Configuration := mkConfiguration {
  ID : string;
  Type_ : string;
  PrivateKey : string;
  Certificate : string
}.

End signer.

(** ** Package [go.mozilla.org/pkcs7]: the parsed structure *)

Module pkcs7.

(** [pkcs7.PKCS7], over the representation of [pkcs7.signerInfo]. *)
Record PKCS7 {signerInfo : Type} := mkPKCS7 {
  Content : bytes;
  Certificates : list x509.Certificate;
  Signers : list signerInfo
}.
Arguments PKCS7 : clear implicits.

(** The assignment [p7.Content = content]. *)
Definition set_Content {signerInfo : Type} (p7 : PKCS7 signerInfo) (content : bytes)
  : PKCS7 signerInfo :=
  {| Content := content; Certificates := Certificates p7; Signers := Signers p7 |}.

End pkcs7.

(** ** The packages the signer calls and this development does not define

    [fmt]'s quoting verb, the key and certificate parsers, the signature
    check of [crypto/x509], SHA-256 and the operations of
    [go.mozilla.org/pkcs7] are taken as an interface.  A function of Go
    that returns [(T, error)] with [T] the zero value exactly when the
    error is set is a sum here; a method that updates its receiver returns
    the updated receiver. *)

Class Externals := {
  (** the verb [%q] of [fmt] *)
  fmt_q : string -> string;
  (** [crypto.PrivateKey] and the public key, in the form of a
      [SubjectPublicKeyInfo], that belongs to it *)
  crypto_PrivateKey : Type;
  crypto_Public : crypto_PrivateKey -> bytes;
  (** [signer.ParsePrivateKey] *)
  signer_ParsePrivateKey : bytes -> crypto_PrivateKey + error;
  (** [pem.Decode], first result *)
  pem_Decode : bytes -> option pem.Block;
  (** [x509.ParseCertificate] *)
  x509_ParseCertificate : bytes -> x509.Certificate + error;
  (** the method [CheckSignatureFrom] of [x509.Certificate] *)
  x509_CheckSignatureFrom : x509.Certificate -> x509.Certificate -> option error;
  (** [sha256.Sum256] *)
  sha256_Sum256 : bytes -> bytes;
  (** [pkcs7.SignedData] and [pkcs7.signerInfo] *)
  pkcs7_SignedData : Type;
  pkcs7_signerInfo : Type;
  pkcs7_NewSignedData : bytes -> pkcs7_SignedData + error;
  pkcs7_AddSigner :
    pkcs7_SignedData -> option x509.Certificate -> option crypto_PrivateKey ->
    pkcs7_SignedData * option error;
  pkcs7_Detach : pkcs7_SignedData -> pkcs7_SignedData;
  pkcs7_Finish : pkcs7_SignedData -> bytes * option error;
  pkcs7_Parse : bytes -> pkcs7.PKCS7 pkcs7_signerInfo + error;
  (** the method [Verify] of [pkcs7.PKCS7] *)
  pkcs7_Verify : pkcs7.PKCS7 pkcs7_signerInfo -> option error
}.

(** ** Package [apk] ([signer/apk/apk.go]) *)

Module apk.
Section WithExternals.
Context {E : Externals}.

(** Type of this signer is "apk" *)
Definition Type_ : string := "apk".

(** An [APKSigner] embeds the configuration; [signingKey] and
    [signingCert] are [nil] until [New] assigns them. *)
Record APKSigner := mkAPKSigner {
  Configuration : signer.Configuration;
  signingKey : option crypto_PrivateKey;
  signingCert : option x509.Certificate
}.

(** [new(APKSigner)]: every field has its zero value. *)
Definition new_APKSigner : APKSigner :=
  {| Configuration :=
       signer.mkConfiguration EmptyString EmptyString EmptyString EmptyString;
     signingKey := None;
     signingCert := None |}.

(** The assignments to the fields of the signer. *)
Definition set_Type (s : APKSigner) (v : string) : APKSigner :=
  let c := Configuration s in
  {| Configuration :=
       signer.mkConfiguration (signer.ID c) v (signer.PrivateKey c) (signer.Certificate c);
     signingKey := signingKey s; signingCert := signingCert s |}.

Definition set_ID (s : APKSigner) (v : string) : APKSigner :=
  let c := Configuration s in
  {| Configuration :=
       signer.mkConfiguration v (signer.Type_ c) (signer.PrivateKey c) (signer.Certificate c);
     signingKey := signingKey s; signingCert := signingCert s |}.

Definition set_PrivateKey (s : APKSigner) (v : string) : APKSigner :=
  let c := Configuration s in
  {| Configuration :=
       signer.mkConfiguration (signer.ID c) (signer.Type_ c) v (signer.Certificate c);
     signingKey := signingKey s; signingCert := signingCert s |}.

Definition set_signingKey (s : APKSigner) (k : option crypto_PrivateKey) : APKSigner :=
  {| Configuration := Configuration s; signingKey := k; signingCert := signingCert s |}.

Definition set_signingCert (s : APKSigner) (c : option x509.Certificate) : APKSigner :=
  {| Configuration := Configuration s; signingKey := signingKey s; signingCert := c |}.

(** [New] initializes an apk signer using a configuration.  [now1] and
    [now2] are the values of the two calls of [time.Now()] in the validity
    test, in the order of the calls. *)
Definition New (conf : signer.Configuration) (now1 now2 : Time)
  : option APKSigner * option error :=
  let s := new_APKSigner in
  if negb (String.eqb (signer.Type_ conf) Type_) then
    (None, Some ("apk: invalid type " ++ fmt_q (signer.Type_ conf)
                 ++ ", must be " ++ fmt_q Type_)%string)
  else
  let s := set_Type s (signer.Type_ conf) in
  if String.eqb (signer.ID conf) EmptyString then
    (None, Some (errors_New "apk: missing signer ID in signer configuration"))
  else
  let s := set_ID s (signer.ID conf) in
  if String.eqb (signer.PrivateKey conf) EmptyString then
    (None, Some (errors_New "apk: missing private key in signer configuration"))
  else
  let s := set_PrivateKey s (signer.PrivateKey conf) in
  match signer_ParsePrivateKey (bytes_of_string (signer.PrivateKey conf)) with
  | inr err => (None, Some (errors_Wrap err "apk: failed to parse private key"))
  | inl key =>
  let s := set_signingKey s (Some key) in
  match pem_Decode (bytes_of_string (signer.Certificate conf)) with
  | None => (None, Some (errors_New "apk: failed to parse certificate PEM"))
  | Some block =>
  match x509_ParseCertificate (pem.Bytes block) with
  | inr err => (None, Some (errors_Wrap err "apk: could not parse X.509 certificate"))
  | inl cert =>
  let s := set_signingCert s (Some cert) in
  (* APK signing certs typically have a 30y expiration, which is fairly
     useless but requires the validity to be correct *)
  if Before now1 (x509.NotBefore cert) || After now2 (x509.NotAfter cert) then
    (None, Some (errors_New "apk: signer certificate is not currently valid"))
  else (Some s, None)
  end end end.

(** [Config] returns the configuration of the current signer. *)
Definition Config (s : APKSigner) : signer.Configuration :=
  {| signer.ID := signer.ID (Configuration s);
     signer.Type_ := signer.Type_ (Configuration s);
     signer.PrivateKey := signer.PrivateKey (Configuration s);
     signer.Certificate := signer.Certificate (Configuration s) |}.

(** [Signature] is a PKCS7 detached signature. *)
Record Signature := mkSignature {
  p7 : option (pkcs7.PKCS7 pkcs7_signerInfo);
  Data : bytes;
  Finished : bool
}.

Definition new_Signature : Signature :=
  {| p7 := None; Data := []; Finished := false |}.

Definition set_p7 (sig : Signature) (v : option (pkcs7.PKCS7 pkcs7_signerInfo)) : Signature :=
  {| p7 := v; Data := Data sig; Finished := Finished sig |}.

Definition set_Data (sig : Signature) (v : bytes) : Signature :=
  {| p7 := p7 sig; Data := v; Finished := Finished sig |}.

Definition set_Finished (sig : Signature) (v : bool) : Signature :=
  {| p7 := p7 sig; Data := Data sig; Finished := v |}.

(** [SignData] takes input data and returns a PKCS7 detached signature. *)
Definition SignData (s : APKSigner) (input : bytes)
  : option Signature * option error :=
  let p7sig := new_Signature in
  match pkcs7_NewSignedData input with
  | inr err => (None, Some (errors_Wrap err "apk: cannot initialize signed data"))
  | inl toBeSigned =>
  let '(toBeSigned, err) := pkcs7_AddSigner toBeSigned (signingCert s) (signingKey s) in
  match err with
  | Some err => (None, Some (errors_Wrap err "apk: cannot sign"))
  | None =>
  let toBeSigned := pkcs7_Detach toBeSigned in
  let '(data, err) := pkcs7_Finish toBeSigned in
  let p7sig := set_Data p7sig data in
  match err with
  | Some err => (None, Some (errors_Wrap err "apk: cannot finish signing data"))
  | None =>
  let p7sig := set_Finished p7sig true in
  (Some p7sig, None)
  end end end.

(** [Marshal] returns the base64 representation of a PKCS7 detached
    signature. *)
Definition Marshal (sig : Signature) : string * option error :=
  if negb (Finished sig) then
    (EmptyString, Some (errors_New "apk: cannot marshal unfinished signature"))
  else if Nat.eqb (List.length (Data sig)) 0 then
    (EmptyString, Some (errors_New "apk: cannot marshal empty signature data"))
  else (base64.EncodeToString (Data sig), None).

(** [Unmarshal] takes the base64 representation of a PKCS7 detached
    signature and the content of the signed data, and returns a PKCS7
    struct. *)
Definition Unmarshal (signature : string) (content : bytes)
  : option Signature * option error :=
  let sig := new_Signature in
  let '(data, err) := base64.DecodeString signature in
  let sig := set_Data sig data in
  match err with
  | Some err =>
      (Some sig, Some (errors_Wrap err "apk.Unmarshal: failed to decode base64 signature"))
  | None =>
  match pkcs7_Parse (Data sig) with
  | inr err =>
      let sig := set_p7 sig None in
      (Some sig, Some (errors_Wrap err "apk.Unmarshal: failed to parse pkcs7 signature"))
  | inl parsed =>
      let sig := set_p7 sig (Some parsed) in
      let sig := set_p7 sig (Some (pkcs7.set_Content parsed content)) in
      let sig := set_Finished sig true in
      (Some sig, None)
  end end.

(** [String] returns a PEM encoded PKCS7 block. *)
Definition String_ (sig : Signature) : string :=
  pem.Encode {| pem.Type_ := "PKCS7"; pem.Bytes := Data sig |}.

End WithExternals.
End apk.

(** ** The monitor's certificate checks ([tools/autograph-monitor])

    The tests of the monitor call [verifyRoot] and [verifyCertChain]; the
    functions themselves are described by sections 4.1 and 4.2 of the
    specification, which the definitions below follow step by step. *)

Module monitor.
Section WithExternals.
Context {E : Externals}.

Definition hexdigits : string := "0123456789ABCDEF".

Definition hexdigit (n : nat) : ascii :=
  match String.get n hexdigits with
  | Some c => c
  | None => "0"%char
  end.

(** Two upper-case hexadecimal digits. *)
Definition hex_byte (b : byte) : string :=
  let n := Byte.to_nat b in
  String (hexdigit (n / 16)) (String (hexdigit (n mod 16)) EmptyString).

(** Modelled from the spec: the fingerprint of a certificate, missing from
    the sources with the rest of the monitor.  It is the SHA-256 digest of
    the DER encoding, rendered as upper-case hexadecimal digits, the bytes
    separated by colons. *)
Definition fingerprint (cert : x509.Certificate) : string :=
  String.concat ":" (map hex_byte (sha256_Sum256 (x509.Raw cert))).

(** Modelled from the spec: the conditions of section 7 that the two
    validators raise, with the context each carries; the type is missing
    from the sources. *)
Inductive condition :=
| chain_order (child parent : string)
| expiry (subject : string)
| root_mismatch (expected actual : string)
| root_invalid (subject : string).

(** Modelled from the spec: the message of a condition, missing from the
    sources.  The quoted phrases are those of section 8. *)
Definition message (c : condition) : string :=
  match c with
  | chain_order child parent =>
      "certificate " ++ child ++ " is not signed by parent certificate " ++ parent
  | expiry subject =>
      "certificate " ++ subject ++ " expires in less than 15 days"
  | root_mismatch expected actual =>
      "hash does not match expected root: expected=" ++ expected ++ "; got=" ++ actual
  | root_invalid subject =>
      "certificate " ++ subject ++ " is not a valid root"
  end%string.

(** Modelled from the spec: the derived self-signed flag of section 3,
    subject equal to issuer and the self-signature verifies. *)
Definition selfSigned (cert : x509.Certificate) : bool :=
  String.eqb (x509.Subject cert) (x509.Issuer cert) &&
  match x509_CheckSignatureFrom cert cert with
  | None => true
  | Some _ => false
  end.

(** Modelled from the spec: a certificate is currently valid when the
    moment of validation is within its validity window. *)
Definition currentlyValid (now : Time) (cert : x509.Certificate) : bool :=
  negb (Before now (x509.NotBefore cert) || After now (x509.NotAfter cert)).

(** Modelled from the spec: [verifyRoot], missing from the sources, after
    section 4.1: the fingerprint is compared with the pinned value, then
    the certificate must be self-signed and within its validity window.
    [None] is the silent success. *)
Definition verifyRoot (RootHash : string) (now : Time) (cert : x509.Certificate)
  : option condition :=
  let actual := fingerprint cert in
  if negb (String.eqb actual RootHash) then Some (root_mismatch RootHash actual)
  else if negb (selfSigned cert && currentlyValid now cert)
  then Some (root_invalid (x509.Subject cert))
  else None.

(** Modelled from the spec: the adjacency test of section 4.2, the
    signature of the child validates against the parent's public key and
    the parent is the child's issuer. *)
Definition signedBy (child parent : x509.Certificate) : bool :=
  match x509_CheckSignatureFrom child parent with
  | None => String.eqb (x509.Issuer child) (x509.Subject parent)
  | Some _ => false
  end.

(** Modelled from the spec: the loop "for i from 0 to n-2" of section 4.2
    over the chain [cert :: rest]. *)
Fixpoint checkLinks (cert : x509.Certificate) (rest : list x509.Certificate)
  : option condition :=
  match rest with
  | [] => None
  | parent :: rest' =>
      if signedBy cert parent then checkLinks parent rest'
      else Some (chain_order (x509.Subject cert) (x509.Subject parent))
  end.

(** Modelled from the spec: the expiry margin of section 4.2, 15 days. *)
Definition expiryMargin : Duration := (15 * 24 * Hour)%Z.

(** Modelled from the spec: [verifyCertChain], missing from the sources,
    after section 4.2, on the chain [leaf :: parents] of length at least
    one: the adjacency loop, the root validator on the final element, then
    the expiry margin of the leaf. *)
Definition verifyCertChain (RootHash : string) (now : Time)
    (leaf : x509.Certificate) (parents : list x509.Certificate)
  : option condition :=
  match checkLinks leaf parents with
  | Some c => Some c
  | None =>
      match verifyRoot RootHash now (last parents leaf) with
      | Some c => Some c
      | None =>
          if (x509.NotAfter leaf - now <? expiryMargin)%Z
          then Some (expiry (x509.Subject leaf))
          else None
      end
  end.

End WithExternals.
End monitor.

(** ** An executable stand-in for the external packages

    [Sim] implements the interface [Externals] with a symbolic signature
    scheme: a private key is one byte, its public key is the same byte, a
    certificate is four bytes (public key, public key of the issuer, first
    and last day of validity) and a signature records the digest signed
    and the key that signed it.  It lets the signer and the validators
    run, and shows that the contract assumed of [pkcs7] below can be
    met. *)

Module Sim.

Definition Day : Duration := (24 * Hour)%Z.

Definition byte_xor (a b : byte) : byte :=
  let '(a0, (a1, (a2, (a3, (a4, (a5, (a6, a7))))))) := Byte.to_bits a in
  let '(b0, (b1, (b2, (b3, (b4, (b5, (b6, b7))))))) := Byte.to_bits b in
  Byte.of_bits (xorb a0 b0, (xorb a1 b1, (xorb a2 b2, (xorb a3 b3,
               (xorb a4 b4, (xorb a5 b5, (xorb a6 b6, xorb a7 b7))))))).

Definition byte_of_nat (n : nat) : byte :=
  match Byte.of_nat (n mod 256) with
  | Some b => b
  | None => x00
  end.

(** A two-byte digest: the exclusive or of the bytes and their number. *)
Definition digest (data : bytes) : bytes :=
  [fold_left byte_xor data x00; byte_of_nat (List.length data)].

Definition days (b : byte) : Time := (Z.of_nat (Byte.to_nat b) * Day)%Z.

Definition certificate (pub issuer first last : byte) : x509.Certificate :=
  {| x509.Raw := [pub; issuer; first; last];
     x509.Subject := string_of_bytes [pub];
     x509.Issuer := string_of_bytes [issuer];
     x509.NotBefore := days first;
     x509.NotAfter := days last;
     x509.RawSubjectPublicKeyInfo := [pub] |}.

Definition ParseCertificate (der : bytes) : x509.Certificate + error :=
  match der with
  | [pub; issuer; first; last] => inl (certificate pub issuer first last)
  | _ => inr "x509: malformed certificate"
  end.

Definition ParsePrivateKey (pem : bytes) : byte + error :=
  match pem with
  | [k] => inl k
  | _ => inr "no suitable key found"
  end.

Definition Decode (data : bytes) : option pem.Block :=
  match data with
  | [] => None
  | _ => Some {| pem.Type_ := "CERTIFICATE"; pem.Bytes := data |}
  end.

Definition CheckSignatureFrom (child parent : x509.Certificate) : option error :=
  match x509.Raw child, x509.RawSubjectPublicKeyInfo parent with
  | [_; issuer; _; _], [pub] =>
      if Byte.eqb issuer pub then None else Some "crypto/rsa: verification error"
  | _, _ => Some "x509: cannot verify signature"
  end.

(** What a signer attests: the digest it signed and its key. *)
Record signerInfo := mkSignerInfo { signedDigest : bytes; signedWith : byte }.

Record SignedData := mkSignedData {
  content : bytes;
  messageDigest : bytes;
  certs : list x509.Certificate;
  signers : list signerInfo
}.

Definition NewSignedData (data : bytes) : SignedData + error :=
  inl {| content := data; messageDigest := digest data; certs := []; signers := [] |}.

Definition AddSigner (sd : SignedData) (cert : option x509.Certificate)
    (pkey : option byte) : SignedData * option error :=
  match cert, pkey with
  | Some cert, Some pkey =>
      ({| content := content sd; messageDigest := messageDigest sd;
          certs := certs sd ++ [cert];
          signers := signers sd ++ [mkSignerInfo (messageDigest sd) pkey] |}, None)
  | _, _ => (sd, Some "pkcs7: nil certificate or key")
  end.

Definition Detach (sd : SignedData) : SignedData :=
  {| content := []; messageDigest := messageDigest sd;
     certs := certs sd; signers := signers sd |}.

(** The encoding holds one signer: its certificate, the digest, the key
    and then the content. *)
Definition Finish (sd : SignedData) : bytes * option error :=
  match certs sd, signers sd with
  | [cert], [mkSignerInfo [d0; d1] k] =>
      match x509.Raw cert with
      | [_; _; _; _] => (x509.Raw cert ++ [d0; d1; k] ++ content sd, None)
      | _ => ([], Some "pkcs7: cannot encode certificate")
      end
  | _, _ => ([], Some "pkcs7: cannot encode signed data")
  end.

Definition Parse (der : bytes) : pkcs7.PKCS7 signerInfo + error :=
  match der with
  | pub :: issuer :: first :: last :: d0 :: d1 :: k :: data =>
      inl {| pkcs7.Content := data;
             pkcs7.Certificates := [certificate pub issuer first last];
             pkcs7.Signers := [mkSignerInfo [d0; d1] k] |}
  | _ => inr "ber2der: input ber is empty or truncated"
  end.

Definition bytes_eqb (a b : bytes) : bool :=
  if list_eq_dec Byte.byte_eq_dec a b then true else false.

(** Every signer must have signed the digest of the content with the key
    of the certificate at its position. *)
Fixpoint verifySigners (data : bytes) (cs : list x509.Certificate)
    (ss : list signerInfo) : option error :=
  match ss, cs with
  | [], _ => None
  | _ :: _, [] => Some "pkcs7: No certificate for signer"
  | s :: ss', c :: cs' =>
      if negb (bytes_eqb (signedDigest s) (digest data))
      then Some "pkcs7: Message digest mismatch"
      else if negb (bytes_eqb [signedWith s] (x509.RawSubjectPublicKeyInfo c))
      then Some "crypto/rsa: verification error"
      else verifySigners data cs' ss'
  end.

Definition Verify (p7 : pkcs7.PKCS7 signerInfo) : option error :=
  match pkcs7.Signers p7 with
  | [] => Some "pkcs7: Message has no signers"
  | _ => verifySigners (pkcs7.Content p7) (pkcs7.Certificates p7) (pkcs7.Signers p7)
  end.

#[export] Instance externals : Externals := {|
  fmt_q := fun s => (dquote ++ s ++ dquote)%string;
  crypto_PrivateKey := byte;
  crypto_Public := fun k => [k];
  signer_ParsePrivateKey := ParsePrivateKey;
  pem_Decode := Decode;
  x509_ParseCertificate := ParseCertificate;
  x509_CheckSignatureFrom := CheckSignatureFrom;
  sha256_Sum256 := digest;
  pkcs7_SignedData := SignedData;
  pkcs7_signerInfo := signerInfo;
  pkcs7_NewSignedData := NewSignedData;
  pkcs7_AddSigner := AddSigner;
  pkcs7_Detach := Detach;
  pkcs7_Finish := Finish;
  pkcs7_Parse := Parse;
  pkcs7_Verify := Verify
|}.

(** Day 10, at which the certificates below are valid. *)
Definition now : Time := (10 * Day)%Z.

Definition payload : bytes := bytes_of_string "hello".

(** The certificate of the key [k], issued by [R], valid from day 1 to
    day 200, and the certificate of another key, [Q]. *)
Definition cert_k : x509.Certificate := certificate "k" "R" x01 xc8.
Definition cert_Q : x509.Certificate := certificate "Q" "R" x01 xc8.

(** A signer configuration whose key is [k] and whose certificate is that
    of [k]. *)
Definition conf_matching : signer.Configuration :=
  {| signer.ID := "apk1"; signer.Type_ := "apk";
     signer.PrivateKey := "k";
     signer.Certificate := string_of_bytes (x509.Raw cert_k) |}.

(** The same with the certificate of [Q]: the key does not belong to the
    certificate. *)
Definition conf_mismatched : signer.Configuration :=
  {| signer.ID := "apk1"; signer.Type_ := "apk";
     signer.PrivateKey := "k";
     signer.Certificate := string_of_bytes (x509.Raw cert_Q) |}.

(** The signers [apk.New] returns for them. *)
Definition signer_of (cert : x509.Certificate) : apk.APKSigner :=
  {| apk.Configuration :=
       {| signer.ID := "apk1"; signer.Type_ := "apk";
          signer.PrivateKey := "k"; signer.Certificate := EmptyString |};
     apk.signingKey := Some "k"%byte;
     apk.signingCert := Some cert |}.

(** The detached signature of [payload] by the key [k] under [cert]. *)
Definition signature_of (cert : x509.Certificate) : apk.Signature :=
  {| apk.p7 := None;
     apk.Data := x509.Raw cert ++ digest payload ++ ["k"%byte];
     apk.Finished := true |}.

(** A chain for the validators: the end entity [E], issued by the
    intermediate [I], issued by the self-signed root [R]. *)
Definition cert_E : x509.Certificate := certificate "E" "I" x01 xc8.
Definition cert_I : x509.Certificate := certificate "I" "R" x01 xc8.
Definition cert_R : x509.Certificate := certificate "R" "R" x01 xc8.

End Sim.

(** ** Vocabulary of the properties *)

(** The fields of a signer configuration and the words by which the errors
    of [apk.New] name them. *)
Inductive field := FType | FID | FPrivateKey | FCertificate.

Definition field_name (f : field) : string :=
  match f with
  | FType => "type"
  | FID => "signer ID"
  | FPrivateKey => "private key"
  | FCertificate => "certificate"
  end.

Section Vocabulary.
Context {E : Externals}.

(** The configuration does not pass the validation of field [f] at the
    clock readings [now1] and [now2]. *)
Definition invalid (conf : signer.Configuration) (now1 now2 : Time) (f : field) : Prop :=
  match f with
  | FType => signer.Type_ conf <> apk.Type_
  | FID => signer.ID conf = EmptyString
  | FPrivateKey =>
      signer.PrivateKey conf = EmptyString \/
      exists err,
        signer_ParsePrivateKey (bytes_of_string (signer.PrivateKey conf)) = inr err
  | FCertificate =>
      match pem_Decode (bytes_of_string (signer.Certificate conf)) with
      | None => True
      | Some block =>
          match x509_ParseCertificate (pem.Bytes block) with
          | inr _ => True
          | inl cert =>
              (now1 < x509.NotBefore cert)%Z \/ (x509.NotAfter cert < now2)%Z
          end
      end
  end.

(** The private key [key] belongs to the certificate [cert]. *)
Definition keyOf (key : crypto_PrivateKey) (cert : x509.Certificate) : Prop :=
  crypto_Public key = x509.RawSubjectPublicKeyInfo cert.

(** The signature [sig], a result of [apk.Unmarshal], verifies against the
    certificate [cert] and the payload: the parsed structure holds the
    payload as its content and that certificate alone, and [Verify]
    accepts it. *)
Definition verifies (sig : apk.Signature) (cert : x509.Certificate)
    (payload : bytes) : Prop :=
  exists parsed,
    apk.p7 sig = Some parsed /\
    pkcs7.Content parsed = payload /\
    map x509.Raw (pkcs7.Certificates parsed) = [x509.Raw cert] /\
    pkcs7_Verify parsed = None.

(** Marshaling [sig] and unmarshaling the encoding with [payload] succeed
    and give a signature that verifies against [cert] and [payload]. *)
Definition roundtrip_verifies (sig : apk.Signature) (cert : x509.Certificate)
    (payload : bytes) : Prop :=
  exists encoded sig',
    apk.Marshal sig = (encoded, None) /\
    apk.Unmarshal encoded payload = (Some sig', None) /\
    verifies sig' cert payload.

End Vocabulary.

(** What the round trip relies on from [crypto/x509] and from
    [go.mozilla.org/pkcs7].  A parsed certificate keeps the encoding it
    was parsed from.  A signed-data structure with one signer, detached
    and finished, is a non-empty encoding that parses back to a structure
    holding the signer's certificate, and that [Verify] accepts once the
    content is attached, provided the signing key belongs to the
    certificate. *)
Class Contract (E : Externals) : Prop := {
  parse_keeps_raw :
    forall (der : bytes) (cert : x509.Certificate),
      x509_ParseCertificate der = inl cert -> x509.Raw cert = der;
  finish_parse_verify :
    forall (content : bytes) (cert : x509.Certificate) (key : crypto_PrivateKey)
           (sd0 sd1 : pkcs7_SignedData) (der : bytes),
      x509_ParseCertificate (x509.Raw cert) = inl cert ->
      pkcs7_NewSignedData content = inl sd0 ->
      pkcs7_AddSigner sd0 (Some cert) (Some key) = (sd1, None) ->
      pkcs7_Finish (pkcs7_Detach sd1) = (der, None) ->
      der <> [] /\
      exists parsed,
        pkcs7_Parse der = inl parsed /\
        map x509.Raw (pkcs7.Certificates parsed) = [x509.Raw cert] /\
        (keyOf key cert -> pkcs7_Verify (pkcs7.set_Content parsed content) = None)
}.

(** The order in which [apk.New] tests the fields. *)
Definition field_rank (f : field) : nat :=
  match f with
  | FType => 0
  | FID => 1
  | FPrivateKey => 2
  | FCertificate => 3
  end.

(** The length of the longest line of a text, where [cur] characters of
    its first line were read already. *)
Fixpoint longest_line (cur : nat) (text : list ascii) : nat :=
  match text with
  | [] => cur
  | c :: text' =>
      if Ascii.eqb c pem.newline
      then Nat.max cur (longest_line 0 text')
      else longest_line (S cur) text'
  end.

(** * Properties *)

(** ** Strings *)

Lemma HasPrefix_app (s prefix t : string) :
  strings_HasPrefix s prefix = true ->
  strings_HasPrefix (s ++ t) prefix = true.
Proof.
  revert s; induction prefix as [|p prefix IH]; intros [|c s]; simpl;
    try reflexivity; try discriminate.
  - now destruct t.
  - intros H; apply andb_true_iff in H as [Hc Hs].
    now rewrite Hc, (IH _ Hs).
Qed.

Lemma HasPrefix_refl_app (prefix t : string) :
  strings_HasPrefix (prefix ++ t) prefix = true.
Proof.
  induction prefix as [|p prefix IH]; simpl.
  - now destruct t.
  - now rewrite Ascii.eqb_refl.
Qed.

Lemma Contains_cons (c : ascii) (s substr : string) :
  strings_Contains (String c s) substr =
  strings_HasPrefix (String c s) substr || strings_Contains s substr.
Proof. reflexivity. Qed.

Lemma Contains_nil (substr : string) :
  strings_Contains EmptyString substr = strings_HasPrefix EmptyString substr.
Proof. apply orb_false_r. Qed.

Lemma Contains_app_l (s t substr : string) :
  strings_Contains s substr = true ->
  strings_Contains (s ++ t) substr = true.
Proof.
  induction s as [|c s IH]; intros H.
  - rewrite Contains_nil in H.
    destruct substr; [|discriminate]. now destruct t.
  - change (String c s ++ t)%string with (String c (s ++ t)).
    rewrite Contains_cons in *.
    apply orb_true_iff in H as [H|H].
    + change (String c (s ++ t)) with (String c s ++ t)%string.
      now rewrite (HasPrefix_app _ _ t H).
    + rewrite (IH H). apply orb_true_r.
Qed.

Lemma Contains_app_r (s t substr : string) :
  strings_Contains t substr = true ->
  strings_Contains (s ++ t) substr = true.
Proof.
  induction s as [|c s IH]; intros H; [exact H|].
  change (String c s ++ t)%string with (String c (s ++ t)).
  rewrite Contains_cons, (IH H). apply orb_true_r.
Qed.

Lemma Contains_prefix_app (substr t : string) :
  strings_Contains (substr ++ t) substr = true.
Proof.
  destruct substr as [|c substr]; [now destruct t|].
  change (String c substr ++ t)%string with (String c (substr ++ t)).
  rewrite Contains_cons.
  change (String c (substr ++ t)) with (String c substr ++ t)%string.
  now rewrite HasPrefix_refl_app.
Qed.

Lemma Contains_infix (s substr t : string) :
  strings_Contains (s ++ substr ++ t) substr = true.
Proof. apply Contains_app_r, Contains_prefix_app. Qed.

(** ** [encoding/base64] *)

Module base64_facts.
Import base64.

Lemma decodeChar_encodeChar (s : sextet) : decodeChar (encodeChar s) = Some s.
Proof.
  destruct s as [[[[[b5 b4] b3] b2] b1] b0].
  destruct b5, b4, b3, b2, b1, b0; reflexivity.
Qed.

Lemma encodeChar_plain (s : sextet) :
  is_newline (encodeChar s) = false /\ is_pad (encodeChar s) = false.
Proof.
  destruct s as [[[[[b5 b4] b3] b2] b1] b0].
  destruct b5, b4, b3, b2, b1, b0; split; reflexivity.
Qed.

Lemma decodeChar_StdPadding : decodeChar StdPadding = None.
Proof. reflexivity. Qed.

Lemma join4_split3 (a b c : byte) :
  let '(s0, s1, s2, s3) := split3 a b c in join4 s0 s1 s2 s3 = (a, b, c).
Proof.
  unfold split3.
  rewrite <- (Byte.of_bits_to_bits a), <- (Byte.of_bits_to_bits b),
    <- (Byte.of_bits_to_bits c).
  generalize (Byte.to_bits a) (Byte.to_bits b) (Byte.to_bits c).
  intros ta tb tc.
  rewrite !Byte.to_bits_of_bits.
  destruct ta as (a0 & a1 & a2 & a3 & a4 & a5 & a6 & a7).
  destruct tb as (b0 & b1 & b2 & b3 & b4 & b5 & b6 & b7).
  destruct tc as (c0 & c1 & c2 & c3 & c4 & c5 & c6 & c7).
  reflexivity.
Qed.

Lemma bytes_ind3 (P : bytes -> Prop) :
  P [] -> (forall a, P [a]) -> (forall a b, P [a; b]) ->
  (forall a b c rest, P rest -> P (a :: b :: c :: rest)) ->
  forall src, P src.
Proof.
  intros H0 H1 H2 H3.
  fix IH 1. intros [|a [|b [|c rest]]].
  - exact H0.
  - apply H1.
  - apply H2.
  - apply H3, IH.
Qed.

(** Decoding one padded quantum: the last sextets do not reach the bytes
    that are kept. *)
Lemma join4_split3_1 (a : byte) :
  let '(s0, s1, _, _) := split3 a zero_byte zero_byte in
  let '(a', _, _) := join4 s0 s1 s0 s0 in a' = a.
Proof.
  unfold split3.
  rewrite <- (Byte.of_bits_to_bits a).
  generalize (Byte.to_bits a); intros ta.
  rewrite !Byte.to_bits_of_bits.
  destruct ta as (a0 & a1 & a2 & a3 & a4 & a5 & a6 & a7).
  reflexivity.
Qed.

Lemma join4_split3_2 (a b : byte) :
  let '(s0, s1, s2, _) := split3 a b zero_byte in
  let '(a', b', _) := join4 s0 s1 s2 s0 in (a', b') = (a, b).
Proof.
  unfold split3.
  rewrite <- (Byte.of_bits_to_bits a), <- (Byte.of_bits_to_bits b).
  generalize (Byte.to_bits a) (Byte.to_bits b); intros ta tb.
  rewrite !Byte.to_bits_of_bits.
  destruct ta as (a0 & a1 & a2 & a3 & a4 & a5 & a6 & a7).
  destruct tb as (b0 & b1 & b2 & b3 & b4 & b5 & b6 & b7).
  reflexivity.
Qed.

Lemma decode_encode (src : bytes) : decode (encode src) = (src, None).
Proof.
  induction src as [|a|a b|a b c rest IH] using bytes_ind3.
  - reflexivity.
  - pose proof (join4_split3_1 a) as H.
    cbn [encode]. destruct (split3 a zero_byte zero_byte) as [[[s0 s1] s2] s3].
    cbn [decode]. rewrite !decodeChar_encodeChar, decodeChar_StdPadding.
    cbn. destruct (join4 s0 s1 s0 s0) as [[a' b'] c']. now subst.
  - pose proof (join4_split3_2 a b) as H.
    cbn [encode]. destruct (split3 a b zero_byte) as [[[s0 s1] s2] s3].
    cbn [decode]. rewrite !decodeChar_encodeChar, decodeChar_StdPadding.
    cbn. destruct (join4 s0 s1 s2 s0) as [[a' b'] c']. now inversion H.
  - pose proof (join4_split3 a b c) as H.
    cbn [encode]. destruct (split3 a b c) as [[[s0 s1] s2] s3].
    cbn [decode]. rewrite !decodeChar_encodeChar, H, IH. reflexivity.
Qed.

Lemma encode_no_newline (src : bytes) :
  filter (fun c => negb (is_newline c)) (encode src) = encode src.
Proof.
  induction src as [|a|a b|a b c rest IH] using bytes_ind3; cbn [encode].
  - reflexivity.
  - destruct (split3 a zero_byte zero_byte) as [[[s0 s1] s2] s3].
    cbn [filter].
    rewrite (proj1 (encodeChar_plain s0)), (proj1 (encodeChar_plain s1)).
    reflexivity.
  - destruct (split3 a b zero_byte) as [[[s0 s1] s2] s3].
    cbn [filter].
    rewrite (proj1 (encodeChar_plain s0)), (proj1 (encodeChar_plain s1)),
      (proj1 (encodeChar_plain s2)).
    reflexivity.
  - destruct (split3 a b c) as [[[s0 s1] s2] s3].
    cbn [filter].
    rewrite (proj1 (encodeChar_plain s0)), (proj1 (encodeChar_plain s1)),
      (proj1 (encodeChar_plain s2)), (proj1 (encodeChar_plain s3)), IH.
    reflexivity.
Qed.

(** Decoding inverts encoding. *)
Lemma DecodeString_EncodeToString (src : bytes) :
  DecodeString (EncodeToString src) = (src, None).
Proof.
  unfold DecodeString, EncodeToString.
  rewrite list_ascii_of_string_of_list_ascii, encode_no_newline.
  apply decode_encode.
Qed.

End base64_facts.

(** ** [apk.New] and [apk.Config] *)

Section apk_New.
Context {E : Externals}.

(** The signer that [New] returns when every test passes. *)
Lemma New_inv (conf : signer.Configuration) (now1 now2 : Time)
    (s : apk.APKSigner) (err : option error) :
  apk.New conf now1 now2 = (Some s, err) ->
  err = None /\
  signer.Type_ conf = apk.Type_ /\
  signer.ID conf <> EmptyString /\
  signer.PrivateKey conf <> EmptyString /\
  exists key block cert,
    signer_ParsePrivateKey (bytes_of_string (signer.PrivateKey conf)) = inl key /\
    pem_Decode (bytes_of_string (signer.Certificate conf)) = Some block /\
    x509_ParseCertificate (pem.Bytes block) = inl cert /\
    (x509.NotBefore cert <= now1)%Z /\ (now2 <= x509.NotAfter cert)%Z /\
    s = {| apk.Configuration :=
             {| signer.ID := signer.ID conf;
                signer.Type_ := signer.Type_ conf;
                signer.PrivateKey := signer.PrivateKey conf;
                signer.Certificate := EmptyString |};
           apk.signingKey := Some key;
           apk.signingCert := Some cert |}.
Proof.
  unfold apk.New.
  destruct (String.eqb_spec (signer.Type_ conf) apk.Type_) as [HT|HT];
    cbn [negb]; [|discriminate].
  destruct (String.eqb_spec (signer.ID conf) EmptyString) as [HI|HI]; [discriminate|].
  destruct (String.eqb_spec (signer.PrivateKey conf) EmptyString) as [HK|HK];
    [discriminate|].
  destruct (signer_ParsePrivateKey _) as [key|e] eqn:Hkey; [|discriminate].
  destruct (pem_Decode _) as [block|] eqn:Hblock; [|discriminate].
  destruct (x509_ParseCertificate _) as [cert|e] eqn:Hcert; [|discriminate].
  unfold Before, After.
  destruct (Z.ltb_spec now1 (x509.NotBefore cert)) as [H1|H1]; [discriminate|].
  destruct (Z.ltb_spec (x509.NotAfter cert) now2) as [H2|H2]; [discriminate|].
  cbn [orb]. intros Hs; inversion Hs; subst.
  repeat split; auto.
  exists key, block, cert. repeat split; auto.
Qed.

(** [New] never returns a signer together with an error, nor neither. *)
Lemma New_result (conf : signer.Configuration) (now1 now2 : Time) :
  (exists err, apk.New conf now1 now2 = (None, Some err)) \/
  (exists s, apk.New conf now1 now2 = (Some s, None)).
Proof.
  unfold apk.New.
  destruct (negb _); [left; eauto|].
  destruct (String.eqb (signer.ID conf) _); [left; eauto|].
  destruct (String.eqb (signer.PrivateKey conf) _); [left; eauto|].
  destruct (signer_ParsePrivateKey _); [|left; eauto].
  destruct (pem_Decode _); [|left; eauto].
  destruct (x509_ParseCertificate _); [|left; eauto].
  destruct (_ || _); [left|right]; eauto.
Qed.

(** The error of a failed construction names a field that is invalid, the
    first one in the order of the tests. *)
Lemma New_error_names (conf : signer.Configuration) (now1 now2 : Time) (err : error) :
  apk.New conf now1 now2 = (None, Some err) ->
  exists f,
    invalid conf now1 now2 f /\
    strings_Contains err (field_name f) = true /\
    forall g, field_rank g < field_rank f -> ~ invalid conf now1 now2 g.
Proof.
  unfold apk.New.
  destruct (String.eqb_spec (signer.Type_ conf) apk.Type_) as [HT|HT]; cbn [negb].
  2:{ intros H; inversion H; subst. exists FType; split; [exact HT|split].
      - exact (Contains_app_l "apk: invalid type " _ "type" eq_refl).
      - intros g Hg; cbn in Hg; lia. }
  destruct (String.eqb_spec (signer.ID conf) EmptyString) as [HI|HI].
  { intros H; inversion H. exists FID; split; [exact HI|split; [reflexivity|]].
    intros [] Hg; cbn in Hg; try lia. now cbn. }
  destruct (String.eqb_spec (signer.PrivateKey conf) EmptyString) as [HK|HK].
  { intros H; inversion H. exists FPrivateKey; split; [now left|split; [reflexivity|]].
    intros [] Hg; cbn in Hg; try lia; now cbn. }
  destruct (signer_ParsePrivateKey _) as [key|e] eqn:Hkey.
  2:{ intros H; inversion H. exists FPrivateKey; split; [right; eauto|split].
      - exact (Contains_app_l "apk: failed to parse private key" _ "private key" eq_refl).
      - intros [] Hg; cbn in Hg; try lia; now cbn. }
  assert (Hfirst : forall g, field_rank g < field_rank FCertificate ->
                             ~ invalid conf now1 now2 g).
  { intros [] Hg; cbn in Hg; try lia; cbn; auto.
    intros [Hk|[e He]]; [contradiction|congruence]. }
  destruct (pem_Decode _) as [block|] eqn:Hblock.
  2:{ intros H; inversion H. exists FCertificate; split; [|split; [reflexivity|exact Hfirst]].
      cbn. now rewrite Hblock. }
  destruct (x509_ParseCertificate _) as [cert|e] eqn:Hcert.
  2:{ intros H; inversion H. exists FCertificate; split; [|split; [|exact Hfirst]].
      - cbn. now rewrite Hblock, Hcert.
      - exact (Contains_app_l "apk: could not parse X.509 certificate" _ "certificate" eq_refl). }
  unfold Before, After.
  destruct (Z.ltb_spec now1 (x509.NotBefore cert)) as [H1|H1]; cbn [orb].
  { intros H; inversion H. exists FCertificate; split; [|split; [reflexivity|exact Hfirst]].
    cbn. rewrite Hblock, Hcert. now left. }
  destruct (Z.ltb_spec (x509.NotAfter cert) now2) as [H2|H2]; [|discriminate].
  intros H; inversion H. exists FCertificate; split; [|split; [reflexivity|exact Hfirst]].
  cbn. rewrite Hblock, Hcert. now right.
Qed.

(** An invalid field makes the construction fail. *)
Lemma New_invalid_fails (conf : signer.Configuration) (now1 now2 : Time) (f : field) :
  invalid conf now1 now2 f ->
  exists err, apk.New conf now1 now2 = (None, Some err).
Proof.
  intros Hf.
  destruct (New_result conf now1 now2) as [H|[s Hs]]; [exact H|exfalso].
  apply New_inv in Hs as (_ & HT & HI & HK & key & block & cert & Hkey & Hb & Hc & H1 & H2 & _).
  destruct f; cbn in Hf.
  - contradiction.
  - contradiction.
  - destruct Hf as [Hf|[e Hf]]; [contradiction|congruence].
  - rewrite Hb, Hc in Hf. lia.
Qed.

(** C2. [New] fails whenever a field of the configuration is invalid: the
    format tag differs from "apk", the identifier is empty, the private key
    is empty or does not parse, the certificate does not parse or is
    outside its validity window at the readings of the clock.  The error
    then names an invalid field, the first that the tests meet.  A failure
    returns the nil signer, and a success returns a signer that holds the
    parsed key and the parsed certificate. *)
Theorem New_validates_configuration (conf : signer.Configuration) (now1 now2 : Time) :
  (forall f, invalid conf now1 now2 f ->
     exists err f',
       apk.New conf now1 now2 = (None, Some err) /\
       invalid conf now1 now2 f' /\
       strings_Contains err (field_name f') = true /\
       forall g, field_rank g < field_rank f' -> ~ invalid conf now1 now2 g) /\
  (forall s err, apk.New conf now1 now2 = (s, Some err) -> s = None) /\
  (forall s err, apk.New conf now1 now2 = (Some s, err) ->
     err = None /\
     exists key block cert,
       signer_ParsePrivateKey (bytes_of_string (signer.PrivateKey conf)) = inl key /\
       pem_Decode (bytes_of_string (signer.Certificate conf)) = Some block /\
       x509_ParseCertificate (pem.Bytes block) = inl cert /\
       apk.signingKey s = Some key /\ apk.signingCert s = Some cert).
Proof.
  split; [|split].
  - intros f Hf.
    destruct (New_invalid_fails conf now1 now2 f Hf) as [err Herr].
    destruct (New_error_names conf now1 now2 err Herr) as (f' & H1 & H2 & H3).
    exists err, f'. auto.
  - intros s err H.
    destruct (New_result conf now1 now2) as [[e He]|[s' Hs']]; congruence.
  - intros s err H.
    apply New_inv in H
      as (-> & _ & _ & _ & key & block & cert & Hk & Hb & Hc & _ & _ & ->).
    split; [reflexivity|]. exists key, block, cert. auto.
Qed.

(** C9. After a successful construction [Config] returns the identifier,
    the type and the private key of the configuration given to [New], and
    an empty certificate. *)
Theorem Config_after_New (conf : signer.Configuration) (now1 now2 : Time)
    (s : apk.APKSigner) :
  apk.New conf now1 now2 = (Some s, None) ->
  apk.Config s =
    {| signer.ID := signer.ID conf;
       signer.Type_ := signer.Type_ conf;
       signer.PrivateKey := signer.PrivateKey conf;
       signer.Certificate := EmptyString |}.
Proof.
  intros H.
  apply New_inv in H as (_ & _ & _ & _ & key & block & cert & _ & _ & _ & _ & _ & ->).
  reflexivity.
Qed.

End apk_New.

(** ** [Marshal], [Unmarshal] and [String] *)

Section apk_Signature.
Context {E : Externals}.

(** C3. [Marshal] returns the standard base64 encoding of the data, with
    no error, when and only when the signature is finished and its data is
    not empty; on an unfinished signature, and on a finished one with empty
    data, it returns the empty string and the error of that state. *)
Theorem Marshal_finished_nonempty (sig : apk.Signature) :
  (apk.Finished sig = true /\ apk.Data sig <> [] <->
   apk.Marshal sig = (base64.EncodeToString (apk.Data sig), None)) /\
  (apk.Finished sig = false ->
   apk.Marshal sig =
     (EmptyString, Some (errors_New "apk: cannot marshal unfinished signature"))) /\
  (apk.Finished sig = true -> apk.Data sig = [] ->
   apk.Marshal sig =
     (EmptyString, Some (errors_New "apk: cannot marshal empty signature data"))).
Proof.
  unfold apk.Marshal.
  destruct (apk.Finished sig); cbn [negb];
    destruct (apk.Data sig) as [|b data]; cbn [List.length Nat.eqb].
  - repeat split; try discriminate; try reflexivity. now intros [_ H].
  - repeat split; try discriminate; try reflexivity.
  - repeat split; try discriminate; try reflexivity. now intros [H _].
  - repeat split; try discriminate; try reflexivity. now intros [H _].
Qed.

(** C4. [Unmarshal] decodes the string as standard base64, parses the
    bytes as a PKCS7 structure, attaches the content to the parsed
    structure and marks the signature finished.  When the string is not
    valid base64, or the bytes are not a PKCS7 structure, it returns the
    error of the decoder or of the parser, wrapped. *)
Theorem Unmarshal_decodes_parses_attaches (signature : string) (content : bytes) :
  (forall data err,
     base64.DecodeString signature = (data, Some err) ->
     exists sig,
       apk.Unmarshal signature content =
         (Some sig,
          Some (errors_Wrap err "apk.Unmarshal: failed to decode base64 signature"))) /\
  (forall data err,
     base64.DecodeString signature = (data, None) ->
     pkcs7_Parse data = inr err ->
     exists sig,
       apk.Unmarshal signature content =
         (Some sig,
          Some (errors_Wrap err "apk.Unmarshal: failed to parse pkcs7 signature"))) /\
  (forall data parsed,
     base64.DecodeString signature = (data, None) ->
     pkcs7_Parse data = inl parsed ->
     apk.Unmarshal signature content =
       (Some {| apk.p7 := Some {| pkcs7.Content := content;
                                  pkcs7.Certificates := pkcs7.Certificates parsed;
                                  pkcs7.Signers := pkcs7.Signers parsed |};
                apk.Data := data;
                apk.Finished := true |}, None)).
Proof.
  unfold apk.Unmarshal.
  split; [|split].
  - intros data err ->. eauto.
  - intros data err -> H. cbn. rewrite H. eauto.
  - intros data parsed -> H. cbn. rewrite H. reflexivity.
Qed.


End apk_Signature.

(** The line breaker only inserts new lines. *)
Lemma lineBreaker_filter (used : nat) (b : list ascii) :
  filter (fun c => negb (base64.is_newline c)) (pem.lineBreaker used b) =
  filter (fun c => negb (base64.is_newline c)) b.
Proof.
  revert used; induction b as [|c b IH]; intros used; cbn [pem.lineBreaker].
  - now destruct (Nat.eqb used 0).
  - destruct (Nat.eqb used pem.pemLineLength).
    + change (filter _ (pem.newline :: c :: pem.lineBreaker 1 b))
        with (filter (fun c => negb (base64.is_newline c)) (c :: pem.lineBreaker 1 b)).
      cbn [filter]. now rewrite IH.
    + cbn [filter]. now rewrite IH.
Qed.

(** C8. The rendering of a signature is a PEM block: the line
    [-----BEGIN PKCS7-----], a body, and the line [-----END PKCS7-----],
    where the body is the standard base64 encoding of the data broken into
    lines, so that decoding the body gives the data back. *)
Theorem String_is_PKCS7_block {E : Externals} (sig : apk.Signature) :
  exists body,
    apk.String_ sig =
      ("-----BEGIN " ++ "PKCS7" ++ "-----" ++ String pem.newline EmptyString
       ++ body
       ++ "-----END " ++ "PKCS7" ++ "-----" ++ String pem.newline EmptyString)%string /\
    body = string_of_list_ascii
             (pem.lineBreaker 0 (list_ascii_of_string
                                   (base64.EncodeToString (apk.Data sig)))) /\
    base64.DecodeString body = (apk.Data sig, None).
Proof.
  eexists; split; [|split]; [| reflexivity |].
  - unfold apk.String_, pem.Encode; cbn [pem.Type_ pem.Bytes].
    unfold base64.EncodeToString.
    rewrite list_ascii_of_string_of_list_ascii. reflexivity.
  - unfold base64.DecodeString, base64.EncodeToString.
    rewrite !list_ascii_of_string_of_list_ascii, lineBreaker_filter,
      base64_facts.encode_no_newline.
    apply base64_facts.decode_encode.
Qed.

(** ** The round trip *)

(** The stand-in meets the contract. *)
Lemma Sim_bytes_eqb_refl (a : bytes) : Sim.bytes_eqb a a = true.
Proof. unfold Sim.bytes_eqb. now destruct (list_eq_dec Byte.byte_eq_dec a a). Qed.

#[export] Instance Sim_contract : Contract Sim.externals.
Proof.
  split.
  - intros der cert. cbn. unfold Sim.ParseCertificate.
    destruct der as [|a [|b [|c [|d [|]]]]]; try discriminate.
    intros H; inversion H. reflexivity.
  - intros content cert key sd0 sd1 der Hcert HN HA HF.
    cbn in *.
    unfold Sim.NewSignedData in HN. inversion HN; subst sd0; clear HN.
    unfold Sim.AddSigner in HA. cbn in HA. inversion HA; subst sd1; clear HA.
    unfold Sim.ParseCertificate in Hcert.
    unfold Sim.Finish, Sim.Detach, Sim.digest in HF. cbn in HF.
    destruct (x509.Raw cert) as [|a [|b [|c [|d [|]]]]] eqn:Hraw; try discriminate.
    injection Hcert as Hc. injection HF as HF; subst der.
    split; [discriminate|].
    eexists; split; [reflexivity|]. split; [reflexivity|].
    unfold keyOf. rewrite <- Hc. cbn. intros Hkey.
    change [fold_left Sim.byte_xor content x00;
            Sim.byte_of_nat (List.length content)] with (Sim.digest content).
    rewrite Hkey, !Sim_bytes_eqb_refl. reflexivity.
Qed.

Section RoundTrip.
Context {E : Externals} {C : Contract E}.

(** C1, as the code has it.  For a signer that [New] constructed and whose
    private key belongs to its certificate, a signature that [SignData]
    returns for a payload marshals, the encoding unmarshals with the same
    payload, and the result verifies against the signer's certificate and
    the payload. *)
Theorem roundtrip_verifies_when_key_matches
    (conf : signer.Configuration) (now1 now2 : Time) (s : apk.APKSigner)
    (key : crypto_PrivateKey) (cert : x509.Certificate)
    (payload : bytes) (sig : apk.Signature) :
  apk.New conf now1 now2 = (Some s, None) ->
  apk.signingKey s = Some key ->
  apk.signingCert s = Some cert ->
  keyOf key cert ->
  apk.SignData s payload = (Some sig, None) ->
  roundtrip_verifies sig cert payload.
Proof.
  intros HNew Hkey Hcert Hmatch HSign.
  apply New_inv in HNew
    as (_ & _ & _ & _ & key' & block & cert' & _ & _ & Hparse & _ & _ & ->).
  cbn in Hkey, Hcert. inversion Hkey; inversion Hcert; subst key' cert'.
  pose proof (parse_keeps_raw _ _ Hparse) as Hraw.
  rewrite <- Hraw in Hparse.
  unfold apk.SignData in HSign. cbn [apk.signingKey apk.signingCert] in HSign.
  destruct (pkcs7_NewSignedData payload) as [sd0|e] eqn:HN; [|discriminate].
  destruct (pkcs7_AddSigner sd0 (Some cert) (Some key)) as [sd1 [e|]] eqn:HA;
    [discriminate|].
  destruct (pkcs7_Finish (pkcs7_Detach sd1)) as [der [e|]] eqn:HF; [discriminate|].
  inversion HSign; subst sig; clear HSign.
  destruct (finish_parse_verify payload cert key sd0 sd1 der Hparse HN HA HF)
    as (Hne & parsed & HP & Hcerts & HV).
  exists (base64.EncodeToString der).
  exists {| apk.p7 := Some (pkcs7.set_Content parsed payload);
            apk.Data := der; apk.Finished := true |}.
  split; [|split].
  - unfold apk.Marshal. cbn.
    destruct der; [contradiction|reflexivity].
  - unfold apk.Unmarshal.
    rewrite base64_facts.DecodeString_EncodeToString. cbn. now rewrite HP.
  - exists (pkcs7.set_Content parsed payload). cbn. auto.
Qed.

End RoundTrip.

(** The amended round trip, run on the stand-in: key [k] with the
    certificate of [k]. *)
Lemma roundtrip_verifies_witness :
  roundtrip_verifies (Sim.signature_of Sim.cert_k) Sim.cert_k Sim.payload.
Proof.
  apply (roundtrip_verifies_when_key_matches
           Sim.conf_matching Sim.now Sim.now (Sim.signer_of Sim.cert_k)
           "k"%byte Sim.cert_k Sim.payload (Sim.signature_of Sim.cert_k));
    reflexivity.
Defined.

(** The round trip of a signer whose key does not belong to its
    certificate: construction and signing succeed, the signature marshals
    and unmarshals, and verification fails. *)
Lemma mismatched_key_does_not_verify :
  apk.New Sim.conf_mismatched Sim.now Sim.now = (Some (Sim.signer_of Sim.cert_Q), None) /\
  apk.SignData (Sim.signer_of Sim.cert_Q) Sim.payload =
    (Some (Sim.signature_of Sim.cert_Q), None) /\
  ~ roundtrip_verifies (Sim.signature_of Sim.cert_Q) Sim.cert_Q Sim.payload.
Proof.
  split; [reflexivity|]. split; [reflexivity|].
  intros (encoded & sig' & HM & HU & parsed & Hp & _ & _ & HV).
  vm_compute in HM. injection HM as <-.
  vm_compute in HU. injection HU as <-.
  cbn in Hp. injection Hp as <-.
  vm_compute in HV. discriminate.
Qed.

(** C1, as stated, fails: it does not hold of every successfully
    constructed signer, even with external packages that meet the
    contract, since [New] accepts a key that does not belong to the
    certificate. *)
Lemma roundtrip_claim_fails :
  ~ (forall (E : Externals) (C : Contract E)
            (conf : signer.Configuration) (now1 now2 : Time) (s : apk.APKSigner)
            (cert : x509.Certificate) (payload : bytes) (sig : apk.Signature),
       apk.New conf now1 now2 = (Some s, None) ->
       apk.signingCert s = Some cert ->
       apk.SignData s payload = (Some sig, None) ->
       roundtrip_verifies sig cert payload).
Proof.
  intros H.
  destruct mismatched_key_does_not_verify as (HNew & HSign & Hno).
  apply Hno.
  exact (H Sim.externals Sim_contract _ _ _ _ _ _ _ HNew eq_refl HSign).
Qed.

(** ** The validators of the monitor *)

Lemma HasPrefix_refl (s : string) : strings_HasPrefix s s = true.
Proof. induction s as [|c s IH]; cbn; [reflexivity|]. now rewrite Ascii.eqb_refl. Qed.

Lemma Contains_refl (s : string) : strings_Contains s s = true.
Proof. destruct s; [reflexivity|]. now rewrite Contains_cons, HasPrefix_refl. Qed.

Section monitor_facts.
Context {E : Externals}.

(** C7. The root validator accepts a self-signed, currently valid
    certificate whose fingerprint is the pinned value.  For any
    certificate whose fingerprint is not the pinned value it raises the
    root-mismatch condition; the message holds the phrase "hash does not
    match expected root", the expected fingerprint and the actual one. *)
Theorem verifyRoot_pinned (RootHash : string) (now : Time) (cert : x509.Certificate) :
  (monitor.fingerprint cert = RootHash ->
   monitor.selfSigned cert = true ->
   monitor.currentlyValid now cert = true ->
   monitor.verifyRoot RootHash now cert = None) /\
  (monitor.fingerprint cert <> RootHash ->
   let c := monitor.root_mismatch RootHash (monitor.fingerprint cert) in
   monitor.verifyRoot RootHash now cert = Some c /\
   strings_Contains (monitor.message c) "hash does not match expected root" = true /\
   strings_Contains (monitor.message c) RootHash = true /\
   strings_Contains (monitor.message c) (monitor.fingerprint cert) = true).
Proof.
  unfold monitor.verifyRoot. split.
  - intros Hfp Hself Hvalid.
    rewrite (proj2 (String.eqb_eq _ _) Hfp), Hself, Hvalid. reflexivity.
  - intros Hfp.
    rewrite (proj2 (String.eqb_neq _ _) Hfp). cbn [negb monitor.message].
    split; [reflexivity|]. split; [|split].
    + exact (Contains_app_l "hash does not match expected root" _ _
               (Contains_refl _)).
    + apply Contains_infix.
    + apply Contains_app_r, Contains_app_r, Contains_app_r, Contains_refl.
Qed.

(** A link that does not hold stops the adjacency loop with a chain-order
    condition. *)
Lemma checkLinks_unsigned (cert : x509.Certificate) (rest : list x509.Certificate)
    (i : nat) (child parent : x509.Certificate) :
  nth_error (cert :: rest) i = Some child ->
  nth_error (cert :: rest) (S i) = Some parent ->
  monitor.signedBy child parent = false ->
  exists c p, monitor.checkLinks cert rest = Some (monitor.chain_order c p).
Proof.
  revert cert i; induction rest as [|next rest IH]; intros cert i Hc Hp Hs.
  - destruct i; discriminate.
  - cbn [monitor.checkLinks].
    destruct (monitor.signedBy cert next) eqn:Hlink; [|eauto].
    destruct i as [|i].
    + cbn in Hc, Hp. congruence.
    + exact (IH next i Hc Hp Hs).
Qed.

Lemma chain_order_message (c p : string) :
  strings_Contains (monitor.message (monitor.chain_order c p))
    "is not signed by parent certificate" = true.
Proof.
  cbn [monitor.message].
  apply Contains_app_r, Contains_app_r.
  exact (Contains_app_l " is not signed by parent certificate " p
           "is not signed by parent certificate" eq_refl).
Qed.

(** C6. When some certificate of the chain, at a position from 0 to n-2,
    is not signed by the certificate that follows it, chain validation
    fails with the chain-order condition, whose message holds "is not
    signed by parent certificate". *)
Theorem verifyCertChain_unsigned_link (RootHash : string) (now : Time)
    (leaf : x509.Certificate) (parents : list x509.Certificate)
    (i : nat) (child parent : x509.Certificate) :
  nth_error (leaf :: parents) i = Some child ->
  nth_error (leaf :: parents) (S i) = Some parent ->
  monitor.signedBy child parent = false ->
  exists c p,
    monitor.verifyCertChain RootHash now leaf parents = Some (monitor.chain_order c p) /\
    strings_Contains (monitor.message (monitor.chain_order c p))
      "is not signed by parent certificate" = true.
Proof.
  intros Hc Hp Hs.
  destruct (checkLinks_unsigned leaf parents i child parent Hc Hp Hs) as (c & p & H).
  exists c, p. split; [|apply chain_order_message].
  unfold monitor.verifyCertChain. now rewrite H.
Qed.

End monitor_facts.

(** ** The properties on the stand-in *)

Section OnSim.
Import Sim.

Example fingerprint_cert_R : monitor.fingerprint cert_R = "C9:04".
Proof. reflexivity. Qed.

Example verifyCertChain_valid :
  monitor.verifyCertChain "C9:04" now cert_E [cert_I; cert_R] = None.
Proof. reflexivity. Qed.

Example Marshal_unsigned :
  apk.Marshal apk.new_Signature =
    (EmptyString, Some "apk: cannot marshal unfinished signature").
Proof. reflexivity. Qed.

Example Marshal_signed :
  apk.Marshal (signature_of cert_k) = ("a1IByGIFaw==", None).
Proof. reflexivity. Qed.

Example Unmarshal_not_base64 :
  exists err,
    apk.Unmarshal "a1IB!" payload =
      (Some {| apk.p7 := None; apk.Data := ["k"; "R"; x01]%byte; apk.Finished := false |},
       Some (errors_Wrap err "apk.Unmarshal: failed to decode base64 signature")).
Proof. eexists. reflexivity. Qed.

(** C2 on a configuration whose format tag is not "apk". *)
Lemma New_validates_configuration_witness :
  exists err f',
    apk.New (signer.mkConfiguration "apk1" "xpi" "k" EmptyString) now now
      = (None, Some err) /\
    invalid (signer.mkConfiguration "apk1" "xpi" "k" EmptyString) now now f' /\
    strings_Contains err (field_name f') = true /\
    forall g, field_rank g < field_rank f' ->
      ~ invalid (signer.mkConfiguration "apk1" "xpi" "k" EmptyString) now now g.
Proof.
  apply (proj1 (New_validates_configuration
                  (signer.mkConfiguration "apk1" "xpi" "k" EmptyString) now now) FType).
  cbn. discriminate.
Defined.

(** C9 on the matching configuration: the certificate given to [New] is
    not in the configuration the signer returns. *)
Lemma Config_after_New_witness :
  apk.Config (signer_of cert_k) =
    {| signer.ID := "apk1"; signer.Type_ := "apk";
       signer.PrivateKey := "k"; signer.Certificate := EmptyString |}.
Proof.
  apply (Config_after_New conf_matching now now (signer_of cert_k)).
  reflexivity.
Defined.

(** C7 on the root [R], with its own fingerprint pinned. *)
Lemma verifyRoot_pinned_witness :
  monitor.verifyRoot "C9:04" now cert_R = None.
Proof.
  apply (proj1 (verifyRoot_pinned "C9:04" now cert_R)); reflexivity.
Defined.

(** C6 on the chain [E; R; I], where the root precedes the intermediate
    that should follow the end entity. *)
Lemma verifyCertChain_unsigned_link_witness :
  exists c p,
    monitor.verifyCertChain "C9:04" now cert_E [cert_R; cert_I]
      = Some (monitor.chain_order c p) /\
    strings_Contains (monitor.message (monitor.chain_order c p))
      "is not signed by parent certificate" = true.
Proof.
  apply (verifyCertChain_unsigned_link "C9:04" now cert_E [cert_R; cert_I]
           1 cert_R cert_I); reflexivity.
Defined.

End OnSim.

(** ** More on [apk.New] *)

Section apk_New_more.
Context {E : Externals}.

(** X1. [New] succeeds exactly on the configurations that have no invalid
    field: it rejects nothing else.  The validity window is closed at both
    ends. *)
Theorem New_succeeds_iff_valid (conf : signer.Configuration) (now1 now2 : Time) :
  (exists s, apk.New conf now1 now2 = (Some s, None)) <->
  (forall f, ~ invalid conf now1 now2 f).
Proof.
  split.
  - intros [s Hs] f Hf.
    destruct (New_invalid_fails conf now1 now2 f Hf) as [err Herr].
    congruence.
  - intros Hvalid.
    destruct (New_result conf now1 now2) as [[err Herr]|Hs]; [exfalso|exact Hs].
    destruct (New_error_names conf now1 now2 err Herr) as (f & Hf & _).
    exact (Hvalid f Hf).
Qed.

(** X2. Every signer that [New] returns has the type "apk", an identifier and
    a private key text that are not empty, and a key and a certificate
    that are not nil. *)
Theorem New_signer_invariant (conf : signer.Configuration) (now1 now2 : Time)
    (s : apk.APKSigner) :
  apk.New conf now1 now2 = (Some s, None) ->
  signer.Type_ (apk.Config s) = "apk" /\
  signer.ID (apk.Config s) <> EmptyString /\
  signer.PrivateKey (apk.Config s) <> EmptyString /\
  apk.signingKey s <> None /\
  apk.signingCert s <> None.
Proof.
  intros H.
  apply New_inv in H as (_ & HT & HI & HK & key & block & cert & _ & _ & _ & _ & _ & ->).
  cbn. repeat split; auto; discriminate.
Qed.

(** X3. When the second reading of the clock is not before the first, the
    certificate of a signer that [New] returns is valid at every instant
    from the first reading to the second. *)
Theorem New_valid_between_readings (conf : signer.Configuration) (now1 now2 : Time)
    (s : apk.APKSigner) (cert : x509.Certificate) (t : Time) :
  apk.New conf now1 now2 = (Some s, None) ->
  apk.signingCert s = Some cert ->
  (now1 <= t <= now2)%Z ->
  (x509.NotBefore cert <= t <= x509.NotAfter cert)%Z.
Proof.
  intros H Hcert Ht.
  apply New_inv in H as (_ & _ & _ & _ & key & block & cert' & _ & _ & _ & H1 & H2 & ->).
  cbn in Hcert. injection Hcert as ->. lia.
Qed.

(** X4. The configuration that [Config] returns does not rebuild the signer:
    its certificate is empty, and [pem.Decode] finds no block in an empty
    input, so [New] rejects it for its certificate at any time. *)
Theorem New_rejects_Config (conf : signer.Configuration) (now1 now2 : Time)
    (s : apk.APKSigner) (t1 t2 : Time) :
  pem_Decode [] = None ->
  apk.New conf now1 now2 = (Some s, None) ->
  apk.New (apk.Config s) t1 t2 =
    (None, Some (errors_New "apk: failed to parse certificate PEM")).
Proof.
  intros Hpem H.
  apply New_inv in H
    as (_ & HT & HI & HK & key & block & cert & Hkey & _ & _ & _ & _ & ->).
  unfold apk.New, apk.Config.
  cbn [apk.Configuration signer.ID signer.Type_ signer.PrivateKey signer.Certificate].
  rewrite (proj2 (String.eqb_eq _ _) HT); cbn [negb].
  rewrite (proj2 (String.eqb_neq _ _) HI), (proj2 (String.eqb_neq _ _) HK).
  rewrite Hkey.
  change (bytes_of_string EmptyString) with (@nil byte).
  now rewrite Hpem.
Qed.

(** X5. The error of a failed [New] is one of seven, in the order of the
    tests; the errors of the two parsers are kept behind the message. *)
Theorem New_error_cases (conf : signer.Configuration) (now1 now2 : Time) (err : error) :
  apk.New conf now1 now2 = (None, Some err) ->
  err = ("apk: invalid type " ++ fmt_q (signer.Type_ conf)
         ++ ", must be " ++ fmt_q "apk")%string \/
  err = "apk: missing signer ID in signer configuration" \/
  err = "apk: missing private key in signer configuration" \/
  (exists cause,
     signer_ParsePrivateKey (bytes_of_string (signer.PrivateKey conf)) = inr cause /\
     err = ("apk: failed to parse private key: " ++ cause)%string) \/
  err = "apk: failed to parse certificate PEM" \/
  (exists block cause,
     pem_Decode (bytes_of_string (signer.Certificate conf)) = Some block /\
     x509_ParseCertificate (pem.Bytes block) = inr cause /\
     err = ("apk: could not parse X.509 certificate: " ++ cause)%string) \/
  err = "apk: signer certificate is not currently valid".
Proof.
  unfold apk.New.
  destruct (negb _); [intros H; injection H as <-; auto|].
  destruct (String.eqb (signer.ID conf) _); [intros H; injection H as <-; auto|].
  destruct (String.eqb (signer.PrivateKey conf) _); [intros H; injection H as <-; auto|].
  destruct (signer_ParsePrivateKey _) as [key|cause] eqn:Hkey.
  2:{ intros H; injection H as <-. do 3 right. left. exists cause. auto. }
  destruct (pem_Decode _) as [block|] eqn:Hblock.
  2:{ intros H; injection H as <-. do 4 right. auto. }
  destruct (x509_ParseCertificate _) as [cert|cause] eqn:Hcert.
  2:{ intros H; injection H as <-. do 5 right. left. exists block, cause. auto. }
  destruct (_ || _); [|discriminate].
  intros H; injection H as <-. do 6 right. reflexivity.
Qed.

End apk_New_more.

(** ** More on [SignData] and [Marshal] *)

Section apk_SignData_more.
Context {E : Externals}.

(** X7. [SignData] returns a signature or an error, never both and never
    neither.  A signature it returns is finished, holds the bytes that
    [Finish] produced for the detached structure, and has no parsed
    structure: it cannot be verified before it is unmarshaled. *)
Theorem SignData_result (s : apk.APKSigner) (input : bytes) :
  (exists err, apk.SignData s input = (None, Some err)) \/
  (exists sd0 sd1 data,
     pkcs7_NewSignedData input = inl sd0 /\
     pkcs7_AddSigner sd0 (apk.signingCert s) (apk.signingKey s) = (sd1, None) /\
     pkcs7_Finish (pkcs7_Detach sd1) = (data, None) /\
     apk.SignData s input =
       (Some {| apk.p7 := None; apk.Data := data; apk.Finished := true |}, None)).
Proof.
  unfold apk.SignData.
  destruct (pkcs7_NewSignedData input) as [sd0|e]; [|left; eauto].
  destruct (pkcs7_AddSigner sd0 _ _) as [sd1 [e|]] eqn:HA; [left; eauto|].
  destruct (pkcs7_Finish (pkcs7_Detach sd1)) as [data [e|]] eqn:HF; [left; eauto|].
  right. exists sd0, sd1, data. auto.
Qed.

(** X8. The error of a failed [SignData] tells the step that failed, the
    initialization, the signer or the encoding, and keeps the error of
    that step of [pkcs7] behind the message. *)
Theorem SignData_error_cases (s : apk.APKSigner) (input : bytes) (err : error) :
  apk.SignData s input = (None, Some err) ->
  (exists cause,
     pkcs7_NewSignedData input = inr cause /\
     err = ("apk: cannot initialize signed data: " ++ cause)%string) \/
  (exists sd0 sd1 cause,
     pkcs7_NewSignedData input = inl sd0 /\
     pkcs7_AddSigner sd0 (apk.signingCert s) (apk.signingKey s) = (sd1, Some cause) /\
     err = ("apk: cannot sign: " ++ cause)%string) \/
  (exists sd0 sd1 data cause,
     pkcs7_NewSignedData input = inl sd0 /\
     pkcs7_AddSigner sd0 (apk.signingCert s) (apk.signingKey s) = (sd1, None) /\
     pkcs7_Finish (pkcs7_Detach sd1) = (data, Some cause) /\
     err = ("apk: cannot finish signing data: " ++ cause)%string).
Proof.
  unfold apk.SignData.
  destruct (pkcs7_NewSignedData input) as [sd0|e].
  2:{ intros H; injection H as <-. left. eauto. }
  destruct (pkcs7_AddSigner sd0 _ _) as [sd1 [e|]] eqn:HA.
  { intros H; injection H as <-. right; left. exists sd0, sd1, e. auto. }
  destruct (pkcs7_Finish (pkcs7_Detach sd1)) as [data [e|]] eqn:HF; [|discriminate].
  intros H; injection H as <-. right; right. exists sd0, sd1, data, e. auto.
Qed.

End apk_SignData_more.

Lemma length_string_of_list_ascii (l : list ascii) :
  String.length (string_of_list_ascii l) = List.length l.
Proof. induction l as [|c l IH]; cbn; congruence. Qed.

Lemma encode_length (src : bytes) :
  List.length (base64.encode src) = 4 * ((List.length src + 2) / 3).
Proof.
  induction src as [|a|a b|a b c rest IH] using base64_facts.bytes_ind3.
  - reflexivity.
  - cbn [base64.encode].
    destruct (base64.split3 a base64.zero_byte base64.zero_byte) as [[[s0 s1] s2] s3].
    reflexivity.
  - cbn [base64.encode].
    destruct (base64.split3 a b base64.zero_byte) as [[[s0 s1] s2] s3].
    reflexivity.
  - cbn [base64.encode].
    destruct (base64.split3 a b c) as [[[s0 s1] s2] s3].
    cbn [List.length]. rewrite IH.
    replace (S (S (S (List.length rest))) + 2) with (List.length rest + 2 + 1 * 3) by lia.
    rewrite Nat.div_add by lia. lia.
Qed.

Lemma encode_alphabet (src : bytes) (c : ascii) :
  In c (base64.encode src) ->
  base64.decodeChar c <> None \/ c = base64.StdPadding.
Proof.
  assert (Hsome : forall s, base64.decodeChar (base64.encodeChar s) <> None).
  { intros s. now rewrite base64_facts.decodeChar_encodeChar. }
  induction src as [|a|a b|a b c' rest IH] using base64_facts.bytes_ind3;
    cbn [base64.encode].
  - intros [].
  - destruct (base64.split3 a base64.zero_byte base64.zero_byte) as [[[s0 s1] s2] s3].
    cbn [In]. intros [<-|[<-|[<-|[<-|[]]]]]; auto.
  - destruct (base64.split3 a b base64.zero_byte) as [[[s0 s1] s2] s3].
    cbn [In]. intros [<-|[<-|[<-|[<-|[]]]]]; auto.
  - destruct (base64.split3 a b c') as [[[s0 s1] s2] s3].
    cbn [In]. intros [<-|[<-|[<-|[<-|H]]]]; auto.
Qed.

Section apk_Marshal_more.
Context {E : Externals}.

Lemma Marshal_inv (sig : apk.Signature) (encoded : string) :
  apk.Marshal sig = (encoded, None) ->
  apk.Finished sig = true /\ apk.Data sig <> [] /\
  encoded = base64.EncodeToString (apk.Data sig).
Proof.
  unfold apk.Marshal.
  destruct (apk.Finished sig); cbn [negb]; [|discriminate].
  destruct (apk.Data sig) as [|b data]; cbn [List.length Nat.eqb]; [discriminate|].
  intros H; injection H as <-. repeat split. discriminate.
Qed.

(** X9. The string of a successful [Marshal] is not empty; it has four
    characters for every three bytes of data, the last group padded, and
    every character is one of the 64 of the alphabet or the padding. *)
Theorem Marshal_output_shape (sig : apk.Signature) (encoded : string) :
  apk.Marshal sig = (encoded, None) ->
  encoded <> EmptyString /\
  String.length encoded = 4 * ((List.length (apk.Data sig) + 2) / 3) /\
  forall c, In c (list_ascii_of_string encoded) ->
            base64.decodeChar c <> None \/ c = base64.StdPadding.
Proof.
  intros H. apply Marshal_inv in H as (_ & Hne & ->).
  unfold base64.EncodeToString.
  split; [|split].
  - intros Heq. apply (f_equal String.length) in Heq.
    rewrite length_string_of_list_ascii, encode_length in Heq.
    change (String.length EmptyString) with 0 in Heq.
    destruct (apk.Data sig) as [|b data]; [contradiction|].
    cbn [List.length] in Heq.
    assert (1 <= (S (List.length data) + 2) / 3)
      by (apply Nat.div_le_lower_bound; lia).
    lia.
  - now rewrite length_string_of_list_ascii, encode_length.
  - intros c. rewrite list_ascii_of_string_of_list_ascii. apply encode_alphabet.
Qed.


End apk_Marshal_more.

(** ** More on [Unmarshal] *)

Lemma list_ascii_of_string_app (a b : string) :
  list_ascii_of_string (a ++ b) = list_ascii_of_string a ++ list_ascii_of_string b.
Proof. induction a as [|c a IH]; cbn; congruence. Qed.

Section apk_Unmarshal_more.
Context {E : Externals}.

(** The three ways [Unmarshal] returns. *)
Lemma Unmarshal_cases (signature : string) (content : bytes) :
  let data := fst (base64.DecodeString signature) in
  (exists err,
     snd (base64.DecodeString signature) = Some err /\
     apk.Unmarshal signature content =
       (Some {| apk.p7 := None; apk.Data := data; apk.Finished := false |},
        Some (errors_Wrap err "apk.Unmarshal: failed to decode base64 signature"))) \/
  (exists err,
     snd (base64.DecodeString signature) = None /\
     pkcs7_Parse data = inr err /\
     apk.Unmarshal signature content =
       (Some {| apk.p7 := None; apk.Data := data; apk.Finished := false |},
        Some (errors_Wrap err "apk.Unmarshal: failed to parse pkcs7 signature"))) \/
  (exists parsed,
     snd (base64.DecodeString signature) = None /\
     pkcs7_Parse data = inl parsed /\
     apk.Unmarshal signature content =
       (Some {| apk.p7 := Some (pkcs7.set_Content parsed content);
                apk.Data := data; apk.Finished := true |}, None)).
Proof.
  unfold apk.Unmarshal.
  destruct (base64.DecodeString signature) as [data [err|]]; cbn [fst snd].
  - left. eauto.
  - cbn. destruct (pkcs7_Parse data) as [parsed|err].
    + right; right. eauto.
    + right; left. eauto.
Qed.

(** X11. Unmarshaling what [Marshal] returned gives the data back, byte for
    byte, whatever the content.  The base64 step cannot fail there: the
    only error left is that of the PKCS7 parser on the data. *)
Theorem Unmarshal_after_Marshal (sig : apk.Signature) (encoded : string)
    (content : bytes) :
  apk.Marshal sig = (encoded, None) ->
  exists sig',
    fst (apk.Unmarshal encoded content) = Some sig' /\
    apk.Data sig' = apk.Data sig /\
    (snd (apk.Unmarshal encoded content) = None <->
     exists parsed, pkcs7_Parse (apk.Data sig) = inl parsed).
Proof.
  intros H. apply Marshal_inv in H as (_ & _ & ->).
  pose proof (base64_facts.DecodeString_EncodeToString (apk.Data sig)) as HD.
  destruct (Unmarshal_cases (base64.EncodeToString (apk.Data sig)) content)
    as [(err & He & _)|[(err & _ & HP & HU)|(parsed & _ & HP & HU)]];
    rewrite HD in *; cbn [fst snd] in *.
  - discriminate.
  - rewrite HU. eexists; cbn; repeat split; try discriminate.
    intros [parsed Hparsed]. congruence.
  - rewrite HU. eexists; cbn; repeat split; eauto.
Qed.

(** X12. The string representation is stable: marshaling the signature that
    [Unmarshal] made of a marshaled signature gives the same string. *)
Theorem Marshal_Unmarshal_Marshal (sig sig' : apk.Signature) (encoded : string)
    (content : bytes) :
  apk.Marshal sig = (encoded, None) ->
  apk.Unmarshal encoded content = (Some sig', None) ->
  apk.Marshal sig' = (encoded, None).
Proof.
  intros H HU. apply Marshal_inv in H as (_ & Hne & ->).
  pose proof (base64_facts.DecodeString_EncodeToString (apk.Data sig)) as HD.
  destruct (Unmarshal_cases (base64.EncodeToString (apk.Data sig)) content)
    as [(err & _ & HU')|[(err & _ & _ & HU')|(parsed & _ & _ & HU')]];
    rewrite HD in HU'; cbn [fst] in HU'; rewrite HU' in HU; try discriminate.
  injection HU as <-.
  unfold apk.Marshal; cbn.
  destruct (apk.Data sig); [contradiction|reflexivity].
Qed.

(** X13. What [Marshal] makes of a signature that [Unmarshal] returned.
    After an error the signature is unfinished and [Marshal] refuses it.
    After a success, the decoded bytes not being empty, [Marshal] returns
    their standard encoding: the string is brought to its canonical form,
    without the new lines it held. *)
Theorem Marshal_after_Unmarshal (signature : string) (content : bytes)
    (sig : apk.Signature) (err : option error) :
  apk.Unmarshal signature content = (Some sig, err) ->
  (err <> None ->
   apk.Marshal sig =
     (EmptyString, Some (errors_New "apk: cannot marshal unfinished signature"))) /\
  (err = None -> fst (base64.DecodeString signature) <> [] ->
   apk.Marshal sig =
     (base64.EncodeToString (fst (base64.DecodeString signature)), None)).
Proof.
  intros HU.
  destruct (Unmarshal_cases signature content)
    as [(e & _ & HU')|[(e & _ & _ & HU')|(parsed & _ & _ & HU')]];
    rewrite HU' in HU; injection HU as <- <-; unfold apk.Marshal; cbn.
  - split; [reflexivity|discriminate].
  - split; [reflexivity|discriminate].
  - split; [intros H; now contradiction H|].
    intros _ H.
    destruct (fst (base64.DecodeString signature)); [now contradiction H|reflexivity].
Qed.

(** X14. [Unmarshal] does not look at the content: the error, the data, the
    state and the certificates and signers of the parsed structure are the
    same for any two contents, and the content given is attached as it is.
    Nothing is verified at this point. *)
Theorem Unmarshal_content_independent (signature : string) (c1 c2 : bytes) :
  exists sig1 sig2 err,
    apk.Unmarshal signature c1 = (Some sig1, err) /\
    apk.Unmarshal signature c2 = (Some sig2, err) /\
    apk.Data sig1 = apk.Data sig2 /\
    apk.Finished sig1 = apk.Finished sig2 /\
    (err <> None -> apk.p7 sig1 = None /\ apk.p7 sig2 = None) /\
    (err = None ->
     exists parsed,
       apk.p7 sig1 = Some (pkcs7.set_Content parsed c1) /\
       apk.p7 sig2 = Some (pkcs7.set_Content parsed c2)).
Proof.
  destruct (Unmarshal_cases signature c1)
    as [(e & He & H1)|[(e & He & HP & H1)|(parsed & He & HP & H1)]];
  destruct (Unmarshal_cases signature c2)
    as [(e' & He' & H2)|[(e' & He' & HP' & H2)|(parsed' & He' & HP' & H2)]];
  try congruence.
  - assert (e' = e) as -> by congruence.
    do 3 eexists. split; [exact H1|]. split; [exact H2|].
    cbn. repeat split; auto. discriminate.
  - assert (e' = e) as -> by congruence.
    do 3 eexists. split; [exact H1|]. split; [exact H2|].
    cbn. repeat split; auto. discriminate.
  - assert (parsed' = parsed) as -> by congruence.
    do 3 eexists. split; [exact H1|]. split; [exact H2|].
    cbn. split; [reflexivity|]. split; [reflexivity|]. split.
    + intros H; now contradiction H.
    + intros _. eauto.
Qed.

(** X15. A carriage return or a line feed in the encoded signature,
    wherever it stands, does not change whether [Unmarshal] succeeds, and
    when it succeeds the result is the same with or without it. *)
Theorem Unmarshal_ignores_newlines (a b : string) (c : ascii) (content : bytes) :
  base64.is_newline c = true ->
  (snd (apk.Unmarshal (a ++ String c b) content) = None <->
   snd (apk.Unmarshal (a ++ b) content) = None) /\
  (snd (apk.Unmarshal (a ++ b) content) = None ->
   apk.Unmarshal (a ++ String c b) content = apk.Unmarshal (a ++ b) content).
Proof.
  intros Hc.
  assert (HD : filter (fun c => negb (base64.is_newline c))
                 (list_ascii_of_string (a ++ String c b)) =
               filter (fun c => negb (base64.is_newline c))
                 (list_ascii_of_string (a ++ b))).
  { rewrite !list_ascii_of_string_app, !filter_app.
    cbn [list_ascii_of_string filter]. now rewrite Hc. }
  assert (HU : apk.Unmarshal (a ++ String c b) content =
               apk.Unmarshal (a ++ b) content).
  { unfold apk.Unmarshal, base64.DecodeString. now rewrite HD. }
  rewrite HU. split; [tauto|reflexivity].
Qed.

(** X16. The body of the PEM rendering is accepted by [Unmarshal] in place of
    the string of [Marshal], with the same result. *)
Theorem Unmarshal_String_body (sig : apk.Signature) (encoded : string)
    (content : bytes) :
  apk.Marshal sig = (encoded, None) ->
  exists body,
    apk.String_ sig =
      ("-----BEGIN PKCS7-----" ++ String pem.newline EmptyString
       ++ body
       ++ "-----END PKCS7-----" ++ String pem.newline EmptyString)%string /\
    apk.Unmarshal body content = apk.Unmarshal encoded content.
Proof.
  intros H. apply Marshal_inv in H as (_ & _ & ->).
  exists (string_of_list_ascii (pem.lineBreaker 0 (base64.encode (apk.Data sig)))).
  split; [reflexivity|].
  assert (HD : base64.DecodeString
                 (string_of_list_ascii
                    (pem.lineBreaker 0 (base64.encode (apk.Data sig)))) =
               base64.DecodeString (base64.EncodeToString (apk.Data sig))).
  { unfold base64.DecodeString, base64.EncodeToString.
    now rewrite !list_ascii_of_string_of_list_ascii, lineBreaker_filter. }
  unfold apk.Unmarshal. now rewrite HD.
Qed.

End apk_Unmarshal_more.

(** ** More on [String] *)

Lemma append_inv_head (a x y : string) : (a ++ x = a ++ y)%string -> x = y.
Proof. induction a as [|c a IH]; cbn; intros H; [exact H|]. injection H as H. auto. Qed.

Lemma append_inv_tail (x y b : string) : (x ++ b = y ++ b)%string -> x = y.
Proof.
  intros H. apply (f_equal list_ascii_of_string) in H.
  rewrite !list_ascii_of_string_app in H. apply app_inv_tail in H.
  rewrite <- (string_of_list_ascii_of_string x), <- (string_of_list_ascii_of_string y).
  now rewrite H.
Qed.

Lemma longest_line_newline (cur : nat) (l1 l2 : list ascii) :
  longest_line cur (l1 ++ pem.newline :: l2) =
  Nat.max (longest_line cur l1) (longest_line 0 l2).
Proof.
  revert cur; induction l1 as [|c l1 IH]; intros cur.
  - reflexivity.
  - cbn [app longest_line]. destruct (Ascii.eqb c pem.newline).
    + rewrite IH. lia.
    + apply IH.
Qed.

Lemma longest_line_lineBreaker (used : nat) (b rest : list ascii) :
  used <= pem.pemLineLength ->
  (forall c, In c b -> Ascii.eqb c pem.newline = false) ->
  longest_line used (pem.lineBreaker used b ++ rest) <=
  Nat.max pem.pemLineLength (longest_line 0 rest).
Proof.
  revert used; induction b as [|c b IH]; intros used Hused Hb.
  - cbn [pem.lineBreaker]. destruct (Nat.eqb_spec used 0) as [->|Hne].
    + cbn [app]. lia.
    + change ([pem.newline] ++ rest) with ([] ++ pem.newline :: rest).
      rewrite longest_line_newline. cbn [longest_line]. lia.
  - cbn [pem.lineBreaker].
    assert (Hc : Ascii.eqb c pem.newline = false) by (apply Hb; now left).
    assert (Hb' : forall c', In c' b -> Ascii.eqb c' pem.newline = false)
      by (intros c' H; apply Hb; now right).
    destruct (Nat.eqb_spec used pem.pemLineLength) as [->|Hne].
    + change ((pem.newline :: c :: pem.lineBreaker 1 b) ++ rest)
        with ([] ++ pem.newline :: (c :: pem.lineBreaker 1 b ++ rest)).
      rewrite longest_line_newline.
      cbn [longest_line]. rewrite Hc.
      specialize (IH 1 ltac:(unfold pem.pemLineLength; lia) Hb'). lia.
    + cbn [app longest_line]. rewrite Hc.
      apply IH; [lia|exact Hb'].
Qed.

Lemma encode_not_newline (src : bytes) (c : ascii) :
  In c (base64.encode src) -> Ascii.eqb c pem.newline = false.
Proof.
  intros H. destruct (encode_alphabet src c H) as [Hd| ->]; [|reflexivity].
  destruct (Ascii.eqb_spec c pem.newline) as [->|]; [|reflexivity].
  now contradiction Hd.
Qed.

Section apk_String_more.
Context {E : Externals}.

(** X19. The PEM rendering tells the data: two signatures with the same
    rendering hold the same bytes. *)
Theorem String_injective (sig1 sig2 : apk.Signature) :
  apk.String_ sig1 = apk.String_ sig2 -> apk.Data sig1 = apk.Data sig2.
Proof.
  unfold apk.String_, pem.Encode; cbn [pem.Type_ pem.Bytes].
  intros H.
  do 4 apply append_inv_head in H.
  apply append_inv_tail in H.
  apply (f_equal list_ascii_of_string) in H.
  rewrite !list_ascii_of_string_of_list_ascii in H.
  apply (f_equal (filter (fun c => negb (base64.is_newline c)))) in H.
  rewrite !lineBreaker_filter, !base64_facts.encode_no_newline in H.
  apply (f_equal base64.decode) in H.
  rewrite !base64_facts.decode_encode in H. congruence.
Qed.

(** X20. No line of the PEM rendering is longer than 64 characters. *)
Theorem String_lines_at_most_64 (sig : apk.Signature) :
  longest_line 0 (list_ascii_of_string (apk.String_ sig)) <= 64.
Proof.
  unfold apk.String_, pem.Encode; cbn [pem.Type_ pem.Bytes].
  rewrite !list_ascii_of_string_app, list_ascii_of_string_of_list_ascii.
  set (body := pem.lineBreaker 0 (base64.encode (apk.Data sig))).
  set (rest := list_ascii_of_string "-----END PKCS7-----" ++ [pem.newline]).
  change (longest_line 0
            (list_ascii_of_string "-----BEGIN PKCS7-----"
             ++ pem.newline :: (body ++ rest)) <= 64).
  rewrite longest_line_newline.
  pose proof (longest_line_lineBreaker 0 (base64.encode (apk.Data sig)) rest
                (Nat.le_0_l _) (encode_not_newline _)) as Hbody.
  fold body in Hbody.
  change (longest_line 0 rest) with 19 in Hbody.
  change (longest_line 0 (list_ascii_of_string "-----BEGIN PKCS7-----")) with 21.
  unfold pem.pemLineLength in Hbody. lia.
Qed.

End apk_String_more.

(** ** The round trip with any key, and the errors of the package *)

Section RoundTrip_more.
Context {E : Externals} {C : Contract E}.

(** X21. With external packages that meet the contract, the round trip itself
    does not depend on the key: for any signer that [New] constructed, a
    signature that [SignData] returns marshals, and the encoding
    unmarshals to a finished signature with the same data, the payload
    attached and the signer's certificate inside.  Only [Verify] depends
    on the key belonging to the certificate. *)
Theorem roundtrip_structure
    (conf : signer.Configuration) (now1 now2 : Time) (s : apk.APKSigner)
    (cert : x509.Certificate) (payload : bytes) (sig : apk.Signature) :
  apk.New conf now1 now2 = (Some s, None) ->
  apk.signingCert s = Some cert ->
  apk.SignData s payload = (Some sig, None) ->
  exists encoded sig' parsed,
    apk.Marshal sig = (encoded, None) /\
    apk.Unmarshal encoded payload = (Some sig', None) /\
    apk.Data sig' = apk.Data sig /\
    apk.Finished sig' = true /\
    apk.p7 sig' = Some parsed /\
    pkcs7.Content parsed = payload /\
    map x509.Raw (pkcs7.Certificates parsed) = [x509.Raw cert].
Proof.
  intros HNew Hcert HSign.
  apply New_inv in HNew
    as (_ & _ & _ & _ & key & block & cert' & _ & _ & Hparse & _ & _ & ->).
  cbn in Hcert. injection Hcert as ->.
  pose proof (parse_keeps_raw _ _ Hparse) as Hraw.
  rewrite <- Hraw in Hparse.
  unfold apk.SignData in HSign. cbn [apk.signingKey apk.signingCert] in HSign.
  destruct (pkcs7_NewSignedData payload) as [sd0|e] eqn:HN; [|discriminate].
  destruct (pkcs7_AddSigner sd0 (Some cert) (Some key)) as [sd1 [e|]] eqn:HA;
    [discriminate|].
  destruct (pkcs7_Finish (pkcs7_Detach sd1)) as [der [e|]] eqn:HF; [discriminate|].
  injection HSign as <-.
  destruct (finish_parse_verify payload cert key sd0 sd1 der Hparse HN HA HF)
    as (Hne & parsed & HP & Hcerts & _).
  exists (base64.EncodeToString der).
  exists {| apk.p7 := Some (pkcs7.set_Content parsed payload);
            apk.Data := der; apk.Finished := true |}.
  exists (pkcs7.set_Content parsed payload).
  split; [|split].
  - unfold apk.Marshal. cbn. destruct der; [contradiction|reflexivity].
  - unfold apk.Unmarshal.
    rewrite base64_facts.DecodeString_EncodeToString. cbn. now rewrite HP.
  - cbn. auto.
Qed.

End RoundTrip_more.

(** X22. Every error of the package tells where it comes from: the errors of
    [New], [SignData] and [Marshal] begin with "apk: ", those of
    [SignData] with "apk: cannot " and those of [Marshal] with "apk:
    cannot marshal ", and the errors of [Unmarshal] begin with
    "apk.Unmarshal: failed to ". *)
Theorem errors_tell_their_origin {E : Externals} :
  (forall conf now1 now2 s err,
     apk.New conf now1 now2 = (s, Some err) ->
     strings_HasPrefix err "apk: " = true) /\
  (forall s input sig err,
     apk.SignData s input = (sig, Some err) ->
     strings_HasPrefix err "apk: cannot " = true) /\
  (forall sig encoded err,
     apk.Marshal sig = (encoded, Some err) ->
     strings_HasPrefix err "apk: cannot marshal " = true) /\
  (forall signature content sig err,
     apk.Unmarshal signature content = (sig, Some err) ->
     strings_HasPrefix err "apk.Unmarshal: failed to " = true).
Proof.
  split; [|split; [|split]].
  - intros conf now1 now2 s err. unfold apk.New.
    destruct (negb _); [intros H; injection H as _ <-; reflexivity|].
    destruct (String.eqb (signer.ID conf) _);
      [intros H; injection H as _ <-; reflexivity|].
    destruct (String.eqb (signer.PrivateKey conf) _);
      [intros H; injection H as _ <-; reflexivity|].
    destruct (signer_ParsePrivateKey _);
      [|intros H; injection H as _ <-; reflexivity].
    destruct (pem_Decode _); [|intros H; injection H as _ <-; reflexivity].
    destruct (x509_ParseCertificate _);
      [|intros H; injection H as _ <-; reflexivity].
    destruct (_ || _); [|discriminate].
    intros H; injection H as _ <-; reflexivity.
  - intros s input sig err. unfold apk.SignData.
    destruct (pkcs7_NewSignedData input);
      [|intros H; injection H as _ <-; reflexivity].
    destruct (pkcs7_AddSigner _ _ _) as [sd1 [e|]];
      [intros H; injection H as _ <-; reflexivity|].
    destruct (pkcs7_Finish _) as [data [e|]]; [|discriminate].
    intros H; injection H as _ <-; reflexivity.
  - intros sig encoded err. unfold apk.Marshal.
    destruct (negb _); [intros H; injection H as _ <-; reflexivity|].
    destruct (Nat.eqb _ _); [|discriminate].
    intros H; injection H as _ <-; reflexivity.
  - intros signature content sig err. unfold apk.Unmarshal.
    destruct (base64.DecodeString signature) as [data [e|]];
      [intros H; injection H as _ <-; reflexivity|].
    cbn. destruct (pkcs7_Parse data); [discriminate|].
    intros H; injection H as _ <-; reflexivity.
Qed.

(** X6. Time decides only the last test of [New]: a configuration accepted at
    some readings of the clock gives, at any other readings, the same
    signer or the error of a certificate that is not currently valid. *)
Theorem New_time_only_validity {E : Externals}
    (conf : signer.Configuration) (now1 now2 : Time) (s : apk.APKSigner)
    (t1 t2 : Time) :
  apk.New conf now1 now2 = (Some s, None) ->
  apk.New conf t1 t2 = (Some s, None) \/
  apk.New conf t1 t2 =
    (None, Some (errors_New "apk: signer certificate is not currently valid")).
Proof.
  unfold apk.New.
  destruct (negb _); [discriminate|].
  destruct (String.eqb (signer.ID conf) _); [discriminate|].
  destruct (String.eqb (signer.PrivateKey conf) _); [discriminate|].
  destruct (signer_ParsePrivateKey _); [|discriminate].
  destruct (pem_Decode _); [|discriminate].
  destruct (x509_ParseCertificate _); [|discriminate].
  destruct (Before now1 _ || After now2 _); [discriminate|].
  intros H; injection H as <-.
  destruct (Before t1 _ || After t2 _); auto.
Qed.

(** ** The further properties on the stand-in *)

Section MoreOnSim.
Import Sim.

Lemma New_signer_invariant_witness :
  signer.Type_ (apk.Config (signer_of cert_k)) = "apk" /\
  signer.ID (apk.Config (signer_of cert_k)) <> EmptyString /\
  signer.PrivateKey (apk.Config (signer_of cert_k)) <> EmptyString /\
  apk.signingKey (signer_of cert_k) <> None /\
  apk.signingCert (signer_of cert_k) <> None.
Proof.
  apply (New_signer_invariant conf_matching now now (signer_of cert_k)).
  reflexivity.
Defined.

Lemma New_valid_between_readings_witness :
  (x509.NotBefore cert_k <= 11 * Day <= x509.NotAfter cert_k)%Z.
Proof.
  apply (New_valid_between_readings conf_matching now (12 * Day)%Z
           (signer_of cert_k) cert_k (11 * Day)%Z).
  - reflexivity.
  - reflexivity.
  - unfold now, Day, Hour, Second, Nanosecond. lia.
Defined.

Lemma New_rejects_Config_witness :
  apk.New (apk.Config (signer_of cert_k)) now now =
    (None, Some (errors_New "apk: failed to parse certificate PEM")).
Proof.
  apply (New_rejects_Config conf_matching now now (signer_of cert_k) now now);
    reflexivity.
Defined.

Lemma New_time_only_validity_witness :
  apk.New conf_matching (300 * Day)%Z (300 * Day)%Z = (Some (signer_of cert_k), None) \/
  apk.New conf_matching (300 * Day)%Z (300 * Day)%Z =
    (None, Some (errors_New "apk: signer certificate is not currently valid")).
Proof.
  apply (New_time_only_validity conf_matching now now (signer_of cert_k)).
  reflexivity.
Defined.

Lemma New_error_cases_witness :
  let conf := signer.mkConfiguration "apk1" "xpi" "k" EmptyString in
  let err := ("apk: invalid type " ++ fmt_q "xpi" ++ ", must be " ++ fmt_q "apk")%string in
  err = ("apk: invalid type " ++ fmt_q (signer.Type_ conf)
         ++ ", must be " ++ fmt_q "apk")%string \/
  err = "apk: missing signer ID in signer configuration" \/
  err = "apk: missing private key in signer configuration" \/
  (exists cause,
     signer_ParsePrivateKey (bytes_of_string (signer.PrivateKey conf)) = inr cause /\
     err = ("apk: failed to parse private key: " ++ cause)%string) \/
  err = "apk: failed to parse certificate PEM" \/
  (exists block cause,
     pem_Decode (bytes_of_string (signer.Certificate conf)) = Some block /\
     x509_ParseCertificate (pem.Bytes block) = inr cause /\
     err = ("apk: could not parse X.509 certificate: " ++ cause)%string) \/
  err = "apk: signer certificate is not currently valid".
Proof.
  apply (New_error_cases (signer.mkConfiguration "apk1" "xpi" "k" EmptyString) now now).
  reflexivity.
Defined.

(** A signer without key or certificate: [AddSigner] refuses it. *)
Lemma SignData_error_cases_witness :
  let s := apk.new_APKSigner in
  let err := "apk: cannot sign: pkcs7: nil certificate or key" in
  (exists cause,
     pkcs7_NewSignedData payload = inr cause /\
     err = ("apk: cannot initialize signed data: " ++ cause)%string) \/
  (exists sd0 sd1 cause,
     pkcs7_NewSignedData payload = inl sd0 /\
     pkcs7_AddSigner sd0 (apk.signingCert s) (apk.signingKey s) = (sd1, Some cause) /\
     err = ("apk: cannot sign: " ++ cause)%string) \/
  (exists sd0 sd1 data cause,
     pkcs7_NewSignedData payload = inl sd0 /\
     pkcs7_AddSigner sd0 (apk.signingCert s) (apk.signingKey s) = (sd1, None) /\
     pkcs7_Finish (pkcs7_Detach sd1) = (data, Some cause) /\
     err = ("apk: cannot finish signing data: " ++ cause)%string).
Proof.
  apply (SignData_error_cases apk.new_APKSigner payload).
  reflexivity.
Defined.

Lemma Marshal_output_shape_witness :
  "a1IByGIFaw==" <> EmptyString /\
  String.length "a1IByGIFaw==" =
    4 * ((List.length (apk.Data (signature_of cert_k)) + 2) / 3) /\
  forall c, In c (list_ascii_of_string "a1IByGIFaw==") ->
            base64.decodeChar c <> None \/ c = base64.StdPadding.
Proof.
  apply (Marshal_output_shape (signature_of cert_k) "a1IByGIFaw==").
  reflexivity.
Defined.


Lemma Unmarshal_after_Marshal_witness :
  exists sig',
    fst (apk.Unmarshal "a1IByGIFaw==" payload) = Some sig' /\
    apk.Data sig' = apk.Data (signature_of cert_k) /\
    (snd (apk.Unmarshal "a1IByGIFaw==" payload) = None <->
     exists parsed, pkcs7_Parse (apk.Data (signature_of cert_k)) = inl parsed).
Proof.
  apply (Unmarshal_after_Marshal (signature_of cert_k) "a1IByGIFaw==" payload).
  reflexivity.
Defined.

(** The signature that [Unmarshal] makes of the string above. *)
Lemma Marshal_Unmarshal_Marshal_witness :
  apk.Marshal
    {| apk.p7 := Some {| pkcs7.Content := payload;
                         pkcs7.Certificates := [cert_k];
                         pkcs7.Signers := [mkSignerInfo (digest payload) "k"] |};
       apk.Data := apk.Data (signature_of cert_k);
       apk.Finished := true |} = ("a1IByGIFaw==", None).
Proof.
  apply (Marshal_Unmarshal_Marshal (signature_of cert_k) _ "a1IByGIFaw==" payload);
    reflexivity.
Defined.

(** A string with a character that is not of the alphabet, and the string
    of the signature above with a line feed in it. *)
Lemma Marshal_after_Unmarshal_witness :
  apk.Marshal {| apk.p7 := None; apk.Data := ["k"; "R"; x01]%byte;
                 apk.Finished := false |} =
    (EmptyString, Some (errors_New "apk: cannot marshal unfinished signature")) /\
  apk.Marshal
    {| apk.p7 := Some {| pkcs7.Content := payload;
                         pkcs7.Certificates := [cert_k];
                         pkcs7.Signers := [mkSignerInfo (digest payload) "k"] |};
       apk.Data := apk.Data (signature_of cert_k);
       apk.Finished := true |} = ("a1IByGIFaw==", None).
Proof.
  split.
  - refine (proj1 (Marshal_after_Unmarshal "a1IB!" payload _
                     (Some (errors_Wrap base64.CorruptInputError
                              "apk.Unmarshal: failed to decode base64 signature"))
                     _) _).
    + reflexivity.
    + discriminate.
  - refine (proj2 (Marshal_after_Unmarshal
                     ("a1IB" ++ String pem.newline "yGIFaw==") payload _ None _)
                  eq_refl _).
    + reflexivity.
    + discriminate.
Defined.

Lemma Unmarshal_ignores_newlines_witness :
  (snd (apk.Unmarshal ("a1IB" ++ String pem.newline "yGIFaw==") payload) = None <->
   snd (apk.Unmarshal ("a1IB" ++ "yGIFaw==") payload) = None) /\
  (snd (apk.Unmarshal ("a1IB" ++ "yGIFaw==") payload) = None ->
   apk.Unmarshal ("a1IB" ++ String pem.newline "yGIFaw==") payload =
   apk.Unmarshal ("a1IB" ++ "yGIFaw==") payload).
Proof.
  apply (Unmarshal_ignores_newlines "a1IB" "yGIFaw==" pem.newline payload).
  reflexivity.
Defined.

Lemma Unmarshal_String_body_witness :
  exists body,
    apk.String_ (signature_of cert_k) =
      ("-----BEGIN PKCS7-----" ++ String pem.newline EmptyString
       ++ body
       ++ "-----END PKCS7-----" ++ String pem.newline EmptyString)%string /\
    apk.Unmarshal body payload = apk.Unmarshal "a1IByGIFaw==" payload.
Proof.
  apply (Unmarshal_String_body (signature_of cert_k) "a1IByGIFaw==" payload).
  reflexivity.
Defined.

Lemma String_injective_witness :
  apk.Data (signature_of cert_k) =
  apk.Data (apk.set_Finished (signature_of cert_k) false).
Proof.
  apply (String_injective (signature_of cert_k)
           (apk.set_Finished (signature_of cert_k) false)).
  reflexivity.
Defined.

(** The round trip of the signer whose key does not belong to its
    certificate. *)
Lemma roundtrip_structure_witness :
  exists encoded sig' parsed,
    apk.Marshal (signature_of cert_Q) = (encoded, None) /\
    apk.Unmarshal encoded payload = (Some sig', None) /\
    apk.Data sig' = apk.Data (signature_of cert_Q) /\
    apk.Finished sig' = true /\
    apk.p7 sig' = Some parsed /\
    pkcs7.Content parsed = payload /\
    map x509.Raw (pkcs7.Certificates parsed) = [x509.Raw cert_Q].
Proof.
  apply (roundtrip_structure conf_mismatched now now (signer_of cert_Q) cert_Q
           payload (signature_of cert_Q)); reflexivity.
Defined.

End MoreOnSim.

(** ** Strings that are not base64 *)

Lemma ascii_ind4 (P : list ascii -> Prop) :
  P [] -> (forall a, P [a]) -> (forall a b, P [a; b]) -> (forall a b c, P [a; b; c]) ->
  (forall a b c d rest, P rest -> P (a :: b :: c :: d :: rest)) ->
  forall src, P src.
Proof.
  intros H0 H1 H2 H3 H4.
  fix IH 1. intros [|a [|b [|c [|d rest]]]].
  - exact H0.
  - apply H1.
  - apply H2.
  - apply H3.
  - apply H4, IH.
Qed.

(** A character that is neither of the alphabet nor the padding makes the
    decoder fail, wherever it stands. *)
Lemma decode_foreign (src : list ascii) (x : ascii) :
  In x src -> base64.decodeChar x = None -> base64.is_pad x = false ->
  snd (base64.decode src) <> None.
Proof.
  intros Hin Hx Hpad; revert Hin.
  induction src as [|a|a b|a b c|a b c d rest IH] using ascii_ind4;
    try (intros _; cbn; discriminate).
  - intros [].
  - intros Hin. cbn [base64.decode].
    destruct (base64.decodeChar a) as [s0|] eqn:Ha; [|cbn; discriminate].
    destruct (base64.decodeChar b) as [s1|] eqn:Hb; [|cbn; discriminate].
    assert (Hrest : forall y, base64.decodeChar y <> None \/ base64.is_pad y = true ->
                              y <> x).
    { intros y [Hy|Hy] ->; congruence. }
    destruct (base64.decodeChar c) as [s2|] eqn:Hc.
    + destruct (base64.decodeChar d) as [s3|] eqn:Hd.
      * destruct (base64.join4 s0 s1 s2 s3) as [[a' b'] c'].
        destruct (base64.decode rest) as [out err] eqn:Hdec. cbn [snd] in *.
        apply IH.
        destruct Hin as [->|[->|[->|[->|Hin]]]]; congruence.
      * destruct (base64.is_pad d) eqn:Hpd; [|cbn; discriminate].
        destruct (base64.join4 s0 s1 s2 s0) as [[a' b'] c'].
        destruct rest as [|r rest]; [|cbn; discriminate].
        destruct Hin as [->|[->|[->|[->|[]]]]]; congruence.
    + destruct (base64.is_pad c && base64.is_pad d) eqn:Hpd; [|cbn; discriminate].
      apply andb_true_iff in Hpd as [Hpc Hpd].
      destruct (base64.join4 s0 s1 s0 s0) as [[a' b'] c'].
      destruct rest as [|r rest]; [|cbn; discriminate].
      destruct Hin as [->|[->|[->|[->|[]]]]]; congruence.
Qed.

(** A number of characters that is not a multiple of four makes the
    decoder fail. *)
Lemma decode_length (src : list ascii) :
  List.length src mod 4 <> 0 -> snd (base64.decode src) <> None.
Proof.
  induction src as [|a|a b|a b c|a b c d rest IH] using ascii_ind4;
    try (intros _; cbn; discriminate).
  - intros H; now contradiction H.
  - intros Hlen.
    assert (Hrest : List.length rest mod 4 <> 0).
    { cbn [List.length] in Hlen.
      replace (S (S (S (S (List.length rest))))) with (List.length rest + 1 * 4)
        in Hlen by lia.
      now rewrite Nat.Div0.mod_add in Hlen. }
    cbn [base64.decode].
    destruct (base64.decodeChar a) as [s0|]; [|cbn; discriminate].
    destruct (base64.decodeChar b) as [s1|]; [|cbn; discriminate].
    destruct (base64.decodeChar c) as [s2|].
    + destruct (base64.decodeChar d) as [s3|].
      * destruct (base64.join4 s0 s1 s2 s3) as [[a' b'] c'].
        destruct (base64.decode rest) as [out err]. cbn [snd] in *. auto.
      * destruct (base64.is_pad d); [|cbn; discriminate].
        destruct (base64.join4 s0 s1 s2 s0) as [[a' b'] c'].
        destruct rest; [now contradiction Hrest|cbn; discriminate].
    + destruct (base64.is_pad c && base64.is_pad d); [|cbn; discriminate].
      destruct (base64.join4 s0 s1 s0 s0) as [[a' b'] c'].
      destruct rest; [now contradiction Hrest|cbn; discriminate].
Qed.

Section apk_Unmarshal_rejects.
Context {E : Externals}.

(** X17. [Unmarshal] refuses, with the error of the base64 decoder and an
    unfinished signature, every string that holds a character other than
    the 64 of the alphabet, the padding and the new lines; the PKCS7
    parser is not reached. *)
Theorem Unmarshal_rejects_foreign_character (signature : string) (content : bytes)
    (x : ascii) :
  In x (list_ascii_of_string signature) ->
  base64.decodeChar x = None ->
  base64.is_pad x = false ->
  base64.is_newline x = false ->
  exists sig err,
    apk.Unmarshal signature content =
      (Some sig,
       Some (errors_Wrap err "apk.Unmarshal: failed to decode base64 signature")) /\
    apk.Finished sig = false /\ apk.p7 sig = None.
Proof.
  intros Hin Hx Hpad Hnl.
  assert (Herr : snd (base64.DecodeString signature) <> None).
  { unfold base64.DecodeString.
    apply (decode_foreign _ x); auto.
    apply filter_In. split; [exact Hin|]. now rewrite Hnl. }
  destruct (Unmarshal_cases signature content)
    as [(e & He & HU)|[(e & He & _)|(parsed & He & _)]]; try congruence.
  rewrite HU. do 2 eexists. split; [reflexivity|]. split; reflexivity.
Qed.

(** X18. [Unmarshal] refuses in the same way every string whose characters,
    new lines apart, do not come in a multiple of four: the padding is
    required. *)
Theorem Unmarshal_rejects_unpadded (signature : string) (content : bytes) :
  List.length (filter (fun c => negb (base64.is_newline c))
                 (list_ascii_of_string signature)) mod 4 <> 0 ->
  exists sig err,
    apk.Unmarshal signature content =
      (Some sig,
       Some (errors_Wrap err "apk.Unmarshal: failed to decode base64 signature")) /\
    apk.Finished sig = false /\ apk.p7 sig = None.
Proof.
  intros Hlen.
  assert (Herr : snd (base64.DecodeString signature) <> None)
    by (apply decode_length, Hlen).
  destruct (Unmarshal_cases signature content)
    as [(e & He & HU)|[(e & He & _)|(parsed & He & _)]]; try congruence.
  rewrite HU. do 2 eexists. split; [reflexivity|]. split; reflexivity.
Qed.

End apk_Unmarshal_rejects.

Section RejectsOnSim.
Import Sim.

Lemma Unmarshal_rejects_foreign_character_witness :
  exists sig err,
    apk.Unmarshal "a1IB!aw=" Sim.payload =
      (Some sig,
       Some (errors_Wrap err "apk.Unmarshal: failed to decode base64 signature")) /\
    apk.Finished sig = false /\ apk.p7 sig = None.
Proof.
  apply (Unmarshal_rejects_foreign_character (E := Sim.externals)
           "a1IB!aw=" Sim.payload "!"%char).
  - cbn. tauto.
  - reflexivity.
  - reflexivity.
  - reflexivity.
Defined.

Lemma Unmarshal_rejects_unpadded_witness :
  exists sig err,
    apk.Unmarshal "a1IByGIFaw" Sim.payload =
      (Some sig,
       Some (errors_Wrap err "apk.Unmarshal: failed to decode base64 signature")) /\
    apk.Finished sig = false /\ apk.p7 sig = None.
Proof.
  apply (Unmarshal_rejects_unpadded (E := Sim.externals) "a1IByGIFaw" Sim.payload).
  cbn. discriminate.
Defined.

End RejectsOnSim.
